(** * Open review-thread inventory ([.agent/scripts/pr.py])

    A shallow embedding of the script [pr.py] and the properties of its
    specification.  The script reads a decoded JSON document, walks to
    [data.repository.pullRequest.reviewThreads.nodes], prints a table header
    and one row per thread that is neither outdated nor resolved.

    Modelling choices, all taken from the Python source:
    - a Python [str] is a list of Unicode code points, so that [len], the
      padding of a format specification and the slice [[:50]] count code
      points;
    - the decoded document is a value of [json]; a [dict] is an association
      list in insertion order whose binding for a key is the first one;
    - the script runs in a small monad that threads the two output streams
      and stops at the first raised exception or [sys.exit]; what was
      printed before stays printed;
    - standard output raises on a character its encoding does not cover, a
      lone surrogate under UTF-8 for one. *)

From Stdlib Require Import String Ascii DecimalString ZArith NArith Bool Lia List.
Import ListNotations.

(** ** Python strings *)

Definition codepoint := N.
Definition pystr := list codepoint.

(** A string literal of the source. *)
Definition lit (s : string) : pystr :=
  map N_of_ascii (list_ascii_of_string s).

Definition newline : codepoint := 10%N.
Definition space : codepoint := 32%N.
Definition dash : codepoint := 45%N.

Fixpoint str_eqb (a b : pystr) : bool :=
  match a, b with
  | [], [] => true
  | x :: a', y :: b' => N.eqb x y && str_eqb a' b'
  | _, _ => false
  end.

(** [s.replace('\n', ' ')] *)
Definition replace_newlines (s : pystr) : pystr :=
  map (fun c => if N.eqb c newline then space else c) s.

(** [s[:n]] *)
Definition slice_to (n : nat) (s : pystr) : pystr := firstn n s.

(** [format(s, '<w')] for a [str]: left-justified, padded with spaces up to
    the minimum width [w], never truncated. *)
Definition ljust (w : nat) (s : pystr) : pystr :=
  s ++ repeat space (w - length s).

(** [str(z)] for an [int]. *)
Definition str_of_int (z : Z) : pystr :=
  lit (NilZero.string_of_int (Z.to_int z)).

(** ** Decoded JSON values

    [json.load] yields [None], [bool], [int], [float], [str], [list] and
    [dict] with [str] keys.  A float is kept by what the script can observe
    of it: its truth value and the digits [format] renders for it. *)

#[warnings="-register-all"]
Inductive json : Type :=
| JNull
| JBool (b : bool)
| JInt (z : Z)
| JFloat (nonzero : bool) (digits : pystr)
| JStr (s : pystr)
| JArr (items : list json)
| JObj (fields : list (pystr * json)).

Fixpoint dict_lookup (k : pystr) (fields : list (pystr * json)) : option json :=
  match fields with
  | [] => None
  | (k', v) :: rest => if str_eqb k k' then Some v else dict_lookup k rest
  end.

(** Truth value of an object, as tested by [if] and [or]. *)
Definition truthy (v : json) : bool :=
  match v with
  | JNull => false
  | JBool b => b
  | JInt z => negb (Z.eqb z 0)
  | JFloat nz _ => nz
  | JStr s => negb (Nat.eqb (length s) 0)
  | JArr l => negb (Nat.eqb (length l) 0)
  | JObj f => negb (Nat.eqb (length f) 0)
  end.

(** ** Exceptions and pure fallible expressions *)

Inductive exn : Type :=
| KeyError
| TypeError
| AttributeError
| IndexError
| OSError
| ValueError
| UnicodeEncodeError.

Inductive res (A : Type) : Type :=
| Ok (a : A)
| Raise (e : exn).
Arguments Ok {A} a.
Arguments Raise {A} e.

Definition rbind {A B} (r : res A) (f : A -> res B) : res B :=
  match r with
  | Ok a => f a
  | Raise e => Raise e
  end.

Notation "'let?' x ':=' r 'in' k" := (rbind r (fun x => k))
  (at level 10, x name, r at level 100, k at level 200).

(** [v.get(k, default)]: only a [dict] has the method. *)
Definition get_default (v : json) (k : pystr) (default : json) : res json :=
  match v with
  | JObj fields =>
      match dict_lookup k fields with
      | Some x => Ok x
      | None => Ok default
      end
  | _ => Raise AttributeError
  end.

(** [v[k]] with a [str] key. *)
Definition subscript (v : json) (k : pystr) : res json :=
  match v with
  | JObj fields =>
      match dict_lookup k fields with
      | Some x => Ok x
      | None => Raise KeyError
      end
  | _ => Raise TypeError
  end.

(** [v[0]]: a [dict] decoded from JSON has no integer key. *)
Definition subscript0 (v : json) : res json :=
  match v with
  | JArr (x :: _) => Ok x
  | JArr [] => Raise IndexError
  | JStr (c :: _) => Ok (JStr [c])
  | JStr [] => Raise IndexError
  | JObj _ => Raise KeyError
  | _ => Raise TypeError
  end.

(** [v.replace('\n', ' ')]: only a [str] has the method. *)
Definition method_replace (v : json) : res pystr :=
  match v with
  | JStr s => Ok (replace_newlines s)
  | _ => Raise AttributeError
  end.

(** [format(v, '<w')], the meaning of [{v:<w}] in an f-string.  [bool]
    inherits the formatting of [int]; [None], [list] and [dict] refuse a
    non-empty format specification. *)
Definition format_left (w : nat) (v : json) : res pystr :=
  match v with
  | JStr s => Ok (ljust w s)
  | JInt z => Ok (ljust w (str_of_int z))
  | JBool b => Ok (ljust w (str_of_int (if b then 1 else 0)))
  | JFloat _ digits => Ok (ljust w digits)
  | JNull | JArr _ | JObj _ => Raise TypeError
  end.

(** [iter(v)] as used by [for t in v]: a [dict] yields its keys, a [str] its
    characters. *)
Definition iterate (v : json) : res (list json) :=
  match v with
  | JArr l => Ok l
  | JObj fields => Ok (map (fun kv => JStr (fst kv)) fields)
  | JStr s => Ok (map (fun c => JStr [c]) s)
  | _ => Raise TypeError
  end.

(** ** The script's effects

    [print] appends one entry to a stream; an entry is the text of one call,
    without the line terminator [print] adds.  Standard output encodes what
    it is given and raises when it cannot; the diagnostic stream replaces
    what it cannot encode and never raises. *)

Record world : Type := mkWorld {
  stdout : list pystr;
  stderr : list pystr
}.

Definition world0 : world := mkWorld [] [].

(** How a computation ends: it returns, [sys.exit(code)] was called, or an
    exception propagates out of the script. *)
Inductive flow (A : Type) : Type :=
| Normal (a : A)
| Exit (code : Z)
| Uncaught (e : exn).
Arguments Normal {A} a.
Arguments Exit {A} code.
Arguments Uncaught {A} e.

Definition M (A : Type) : Type := world -> flow A * world.

Definition ret {A} (a : A) : M A := fun w => (Normal a, w).

Definition bind {A B} (m : M A) (f : A -> M B) : M B :=
  fun w =>
    match m w with
    | (Normal a, w') => f a w'
    | (Exit c, w') => (Exit c, w')
    | (Uncaught e, w') => (Uncaught e, w')
    end.

Notation "'let*' x ':=' m 'in' k" := (bind m (fun x => k))
  (at level 10, x name, m at level 100, k at level 200).
Notation "m ;; k" := (bind m (fun _ => k))
  (at level 100, k at level 200, right associativity).

Definition lift {A} (r : res A) : M A :=
  fun w =>
    match r with
    | Ok a => (Normal a, w)
    | Raise e => (Uncaught e, w)
    end.

(** The host as the script sees it: [os.path.exists]; the result of [open]
    followed by [json.load], which either decodes a document or raises (a
    directory, a permission error, malformed JSON); and the characters
    beyond ASCII that the encoding of standard output covers. *)
Record host : Type := mkHost {
  path_exists : pystr -> bool;
  load_json : pystr -> res json;
  stdout_encodes : codepoint -> bool
}.

(** Every encoding of a standard stream covers ASCII. *)
Definition can_encode (h : host) (c : codepoint) : bool :=
  N.ltb c 128 || stdout_encodes h c.

Definition encodable (h : host) (s : pystr) : bool :=
  forallb (can_encode h) s.

(** [print(s)]: the text is encoded whole before anything is written, so a
    character that standard output cannot encode raises
    [UnicodeEncodeError] and leaves the stream as it was. *)
Definition print (h : host) (s : pystr) : M unit :=
  fun w =>
    if encodable h s
    then (Normal tt, mkWorld (stdout w ++ [s]) (stderr w))
    else (Uncaught UnicodeEncodeError, w).

(** [print(s, file=sys.stderr)] *)
Definition print_err (s : pystr) : M unit :=
  fun w => (Normal tt, mkWorld (stdout w) (stderr w ++ [s])).

(** [sys.exit(code)] *)
Definition sys_exit {A} (code : Z) : M A := fun w => (Exit code, w).

(** ** The script *)

(** [t['isOutdated'] or t['isResolved']], tested by [if]: the right operand
    is evaluated only when the left one is false. *)
Definition skip_test (t : json) : res bool :=
  let? o := subscript t (lit "isOutdated") in
  if truthy o then Ok true
  else let? r := subscript t (lit "isResolved") in Ok (truthy r).

(** [t['comments']['nodes'][0]['body'].replace('\n', ' ')[:50]] *)
Definition comment_text (t : json) : res pystr :=
  let? c := subscript t (lit "comments") in
  let? n := subscript c (lit "nodes") in
  let? f := subscript0 n in
  let? b := subscript f (lit "body") in
  let? r := method_replace b in
  Ok (slice_to 50 r).

(** The first four columns of a row, each followed by one space:
    [{tid:<20} {path:<30} {line:<5} {'OPEN':<10} ]. *)
Definition row_columns (tid path line : json) : res pystr :=
  let? c1 := format_left 20 tid in
  let? c2 := format_left 30 path in
  let? c3 := format_left 5 line in
  let? c4 := format_left 10 (JStr (lit "OPEN")) in
  Ok (c1 ++ [space] ++ c2 ++ [space] ++ c3 ++ [space] ++ c4 ++ [space]).

(** [f"{tid:<20} {path:<30} {line:<5} {'OPEN':<10} {body}"] *)
Definition format_row (tid path line : json) (body : pystr) : res pystr :=
  let? cols := row_columns tid path line in
  Ok (cols ++ body).

(** The body of the [for] loop. *)
Definition thread_body (h : host) (t : json) : M unit :=
  let* skip := lift (skip_test t) in
  if skip then ret tt
  else
    let* tid := lift (subscript t (lit "id")) in
    let* path := lift (subscript t (lit "path")) in
    let* line := lift (subscript t (lit "line")) in
    let* body := lift (comment_text t) in
    let* row := lift (format_row tid path line body) in
    print h row.

(** What one iteration computes before its only effect, the final [print]:
    [None] when the thread is skipped by [continue], the row otherwise. *)
Definition thread_row (t : json) : res (option pystr) :=
  let? skip := skip_test t in
  if skip then Ok None
  else
    let? tid := subscript t (lit "id") in
    let? path := subscript t (lit "path") in
    let? line := subscript t (lit "line") in
    let? body := comment_text t in
    let? row := format_row tid path line body in
    Ok (Some row).

(** [for t in threads: ...] once [iter(threads)] has been taken. *)
Fixpoint for_threads (h : host) (ts : list json) : M unit :=
  match ts with
  | [] => ret tt
  | t :: rest => thread_body h t ;; for_threads h rest
  end.

(** [data.get('data', {}).get('repository', {}).get('pullRequest', {})
        .get('reviewThreads', {}).get('nodes', [])] *)
Definition navigate (data : json) : res json :=
  let? d := get_default data (lit "data") (JObj []) in
  let? r := get_default d (lit "repository") (JObj []) in
  let? p := get_default r (lit "pullRequest") (JObj []) in
  let? rt := get_default p (lit "reviewThreads") (JObj []) in
  get_default rt (lit "nodes") (JArr []).

(** [f"{ 'THREAD ID':<20} {'PATH':<30} {'LINE':<5} {'STATUS':<10} {'COMMENT'}"] *)
Definition header : pystr :=
  ljust 20 (lit "THREAD ID") ++ [space] ++ ljust 30 (lit "PATH") ++ [space]
  ++ ljust 5 (lit "LINE") ++ [space] ++ ljust 10 (lit "STATUS") ++ [space]
  ++ lit "COMMENT".

(** ["-" * 100] *)
Definition separator : pystr := repeat dash 100.

Definition inventory (h : host) (file_path : pystr) : M unit :=
  (if negb (path_exists h file_path)
   then print_err (lit "Error: " ++ file_path ++ lit " not found") ;; sys_exit 1
   else ret tt) ;;
  let* data := lift (load_json h file_path) in
  let* threads := lift (navigate data) in
  print h header ;;
  print h separator ;;
  let* ts := lift (iterate threads) in
  for_threads h ts.

(** The [if __name__ == "__main__"] block; [argv] is [sys.argv]. *)
Definition main (h : host) (argv : list pystr) : M unit :=
  (if Nat.ltb (length argv) 2
   then print_err (lit "Usage: uv run pr.py <threads.json>") ;; sys_exit 1
   else ret tt) ;;
  inventory h (nth 1 argv []).

(** A run of the script from empty streams, and the status the interpreter
    exits with. *)
Definition run (h : host) (argv : list pystr) : flow unit * world :=
  main h argv world0.

Definition exit_status (f : flow unit) : Z :=
  match f with
  | Normal _ => 0
  | Exit code => code
  | Uncaught _ => 1
  end.

(** ** The scenario of the specification *)

Definition thread_T1 : json :=
  JObj [ (lit "id", JStr (lit "T1"));
         (lit "path", JStr (lit "a.py"));
         (lit "line", JInt 10);
         (lit "isOutdated", JBool false);
         (lit "isResolved", JBool false);
         (lit "comments",
          JObj [ (lit "nodes",
                  JArr [ JObj [ (lit "body",
                                 JStr (lit "line one" ++ [newline] ++ lit "line two")) ] ]) ]) ].

Definition thread_T2 : json :=
  JObj [ (lit "id", JStr (lit "T2"));
         (lit "path", JStr (lit "b.py"));
         (lit "line", JInt 5);
         (lit "isOutdated", JBool true);
         (lit "isResolved", JBool false);
         (lit "comments",
          JObj [ (lit "nodes", JArr [ JObj [ (lit "body", JStr (lit "ignored")) ] ]) ]) ].

(** The envelope [{"data":{"repository":{"pullRequest":{"reviewThreads":
    {"nodes": ts}}}}}]. *)
Definition envelope (ts : list json) : json :=
  JObj [ (lit "data",
    JObj [ (lit "repository",
      JObj [ (lit "pullRequest",
        JObj [ (lit "reviewThreads",
          JObj [ (lit "nodes", JArr ts) ]) ]) ]) ]) ].

Definition scenario_document : json := envelope [thread_T1; thread_T2].

(** What UTF-8 encodes: every code point up to U+10FFFF that is not a
    surrogate. *)
Definition utf8_encodes (c : codepoint) : bool :=
  N.ltb c 55296 || (N.ltb 57343 c && N.leb c 1114111).

(** A host on which exactly the path [p] exists and decodes to [doc], with a
    UTF-8 standard output. *)
Definition single_file (p : pystr) (doc : json) : host :=
  mkHost (fun q => str_eqb q p)
         (fun q => if str_eqb q p then Ok doc else Raise OSError)
         utf8_encodes.

(** A host without files, with a UTF-8 standard output. *)
Definition plain_host : host :=
  mkHost (fun _ => false) (fun _ => Raise OSError) utf8_encodes.

Definition header_text : pystr :=
  lit "THREAD ID            PATH                           LINE  STATUS     COMMENT".

Definition separator_text : pystr :=
  lit "----------------------------------------------------------------------------------------------------".

Definition row_T3_text : pystr :=
  lit "T3                   src/c.py                       120   OPEN       please rename this and split the function in two b".

Definition row_T1_text : pystr :=
  lit "T1                   a.py                           10    OPEN       line one line two".

(** ** Vocabulary of the specification *)

(** The truth value of a flag of a thread record, when the record is a
    mapping that has the key. *)
Definition flag (k : pystr) (t : json) : option bool :=
  match t with
  | JObj o => option_map truthy (dict_lookup k o)
  | _ => None
  end.

(** A thread that is not skipped: both flags are present and false. *)
Definition is_open (t : json) : bool :=
  match flag (lit "isOutdated") t, flag (lit "isResolved") t with
  | Some false, Some false => true
  | _, _ => false
  end.

(** The body of the first comment of a thread record shaped as the data
    model says: [comments.nodes] is a sequence whose first element is a
    mapping with a string [body]. *)
Definition first_comment_body (t : json) : option pystr :=
  match t with
  | JObj o =>
      match dict_lookup (lit "comments") o with
      | Some (JObj c) =>
          match dict_lookup (lit "nodes") c with
          | Some (JArr (JObj f :: _)) =>
              match dict_lookup (lit "body") f with
              | Some (JStr raw) => Some raw
              | _ => None
              end
          | _ => None
          end
      | _ => None
      end
  | _ => None
  end.

(** The COMMENT field as the specification words it: newlines replaced by
    single spaces, then at most 50 characters kept. *)
Definition spec_comment (raw : pystr) : pystr :=
  firstn 50 (map (fun c => if N.eqb c newline then space else c) raw).

(** The keys of the envelope, outermost first. *)
Definition intermediate_keys : list pystr :=
  [lit "data"; lit "repository"; lit "pullRequest"; lit "reviewThreads"].

Definition envelope_keys : list pystr := intermediate_keys ++ [lit "nodes"].

(** Some key of the path is absent from the mapping that the keys before it
    lead to. *)
Fixpoint key_absent_on_path (ks : list pystr) (v : json) : bool :=
  match ks with
  | [] => false
  | k :: ks' =>
      match v with
      | JObj o =>
          match dict_lookup k o with
          | None => true
          | Some v' => key_absent_on_path ks' v'
          end
      | _ => false
      end
  end.

(** Some key of the path is present, reached through mappings only, and
    bound to a value that is not a mapping. *)
Fixpoint non_mapping_on_path (ks : list pystr) (v : json) : bool :=
  match ks with
  | [] => false
  | k :: ks' =>
      match v with
      | JObj o =>
          match dict_lookup k o with
          | None => false
          | Some v' =>
              match v' with
              | JObj _ => non_mapping_on_path ks' v'
              | _ => true
              end
          end
      | _ => false
      end
  end.

(** A required field of a thread record is missing: one of [id], [path],
    [line], or the body of the first comment, the latter also when the
    sequence of comments is empty. *)
Inductive missing_required_field (o : list (pystr * json)) : Prop :=
| missing_id : dict_lookup (lit "id") o = None -> missing_required_field o
| missing_path : dict_lookup (lit "path") o = None -> missing_required_field o
| missing_line : dict_lookup (lit "line") o = None -> missing_required_field o
| missing_comments :
    dict_lookup (lit "comments") o = None -> missing_required_field o
| missing_comment_nodes c :
    dict_lookup (lit "comments") o = Some (JObj c) ->
    dict_lookup (lit "nodes") c = None -> missing_required_field o
| empty_comments c :
    dict_lookup (lit "comments") o = Some (JObj c) ->
    dict_lookup (lit "nodes") c = Some (JArr []) -> missing_required_field o
| missing_body c f rest :
    dict_lookup (lit "comments") o = Some (JObj c) ->
    dict_lookup (lit "nodes") c = Some (JArr (JObj f :: rest)) ->
    dict_lookup (lit "body") f = None -> missing_required_field o.

(** A thread record of the data model, as far as the script reads it: both
    flags are booleans and, when both are false, [id] and [path] are
    strings, [line] is an integer and the first comment has a string body. *)
Definition well_formed_thread (t : json) : bool :=
  match t with
  | JObj o =>
      match dict_lookup (lit "isOutdated") o, dict_lookup (lit "isResolved") o with
      | Some (JBool bo), Some (JBool br) =>
          if bo || br then true
          else
            match dict_lookup (lit "id") o, dict_lookup (lit "path") o,
                  dict_lookup (lit "line") o, first_comment_body t with
            | Some (JStr _), Some (JStr _), Some (JInt _), Some _ => true
            | _, _, _, _ => false
            end
      | _, _ => false
      end
  | _ => false
  end.

(** The row the specification asks for a thread that is not skipped. *)
Definition spec_row (t : json) : pystr :=
  match t with
  | JObj o =>
      match dict_lookup (lit "id") o, dict_lookup (lit "path") o,
            dict_lookup (lit "line") o, first_comment_body t with
      | Some (JStr tid), Some (JStr path), Some (JInt line), Some raw =>
          ljust 20 tid ++ [space] ++ ljust 30 path ++ [space]
          ++ ljust 5 (str_of_int line) ++ [space] ++ ljust 10 (lit "OPEN")
          ++ [space] ++ spec_comment raw
      | _, _, _, _ => []
      end
  | _ => []
  end.

(** A thread whose only key is [isOutdated], bound to [true]. *)
Definition thread_outdated_only : json :=
  JObj [ (lit "isOutdated", JBool true) ].

(** The first four columns of the row of a thread, as the loop body computes
    them from the thread's [id], [path] and [line]. *)
Definition thread_columns (t : json) : res pystr :=
  let? tid := subscript t (lit "id") in
  let? path := subscript t (lit "path") in
  let? line := subscript t (lit "line") in
  row_columns tid path line.

(** A line is the row of an open thread of [ts]: the thread's four columns
    followed by the COMMENT field of the specification, which holds at most
    50 characters and no newline. *)
Definition comment_row (ts : list json) (ln : pystr) : Prop :=
  exists t cols raw,
    In t ts /\ is_open t = true /\
    thread_columns t = Ok cols /\ first_comment_body t = Some raw /\
    ln = cols ++ spec_comment raw /\
    length (spec_comment raw) <= 50 /\ ~ In newline (spec_comment raw).

(** ** Sample inputs *)

(** [{"data": {"repository": {}}}]: [pullRequest] is absent. *)
Definition partial_document : json :=
  JObj [ (lit "data", JObj [ (lit "repository", JObj []) ]) ].

(** [{"data": {"repository": null}}] *)
Definition null_repository_document : json :=
  JObj [ (lit "data", JObj [ (lit "repository", JNull) ]) ].

(** An open thread whose sequence of comments is empty. *)
Definition thread_without_comments : list (pystr * json) :=
  [ (lit "id", JStr (lit "T4"));
    (lit "path", JStr (lit "d.py"));
    (lit "line", JInt 1);
    (lit "isOutdated", JBool false);
    (lit "isResolved", JBool false);
    (lit "comments", JObj [ (lit "nodes", JArr []) ]) ].

(** An open thread whose comment is longer than 50 characters and spans
    three lines. *)
Definition thread_T3 : json :=
  JObj [ (lit "id", JStr (lit "T3"));
         (lit "path", JStr (lit "src/c.py"));
         (lit "line", JInt 120);
         (lit "isOutdated", JBool false);
         (lit "isResolved", JBool false);
         (lit "comments",
          JObj [ (lit "nodes",
                  JArr [ JObj [ (lit "body",
                     JStr (lit "please rename this" ++ [newline]
                           ++ lit "and split the function in two" ++ [newline]
                           ++ lit "before merging")) ];
                         JObj [ (lit "body", JStr (lit "done")) ] ]) ]) ].

(** A resolved thread that has no other field than its two flags. *)
Definition thread_resolved_bare : json :=
  JObj [ (lit "isOutdated", JBool false); (lit "isResolved", JBool true) ].

(** An open thread without [isResolved]. *)
Definition thread_without_resolved : list (pystr * json) :=
  [ (lit "isOutdated", JBool false); (lit "id", JStr (lit "T5")) ].

(** A thread without [isOutdated] whose [isResolved] is true. *)
Definition thread_without_outdated : list (pystr * json) :=
  [ (lit "isResolved", JBool true); (lit "id", JStr (lit "T6")) ].

(** The chain of [get] calls with the empty mapping as default, over any
    list of keys; [navigate] is this chain over the four intermediate keys
    followed by the [get] of [nodes]. *)
Fixpoint get_chain (ks : list pystr) (v : json) : res json :=
  match ks with
  | [] => Ok v
  | k :: ks' => let? x := get_default v k (JObj []) in get_chain ks' x
  end.

(** ** Vocabulary for the shapes of values the script meets *)

Definition is_mapping (v : json) : bool :=
  match v with
  | JObj _ => true
  | _ => false
  end.

Definition is_string (v : json) : bool :=
  match v with
  | JStr _ => true
  | _ => false
  end.

(** Values [for] cannot iterate over: [None], booleans and numbers. *)
Definition not_iterable (v : json) : bool :=
  match v with
  | JNull | JBool _ | JInt _ | JFloat _ _ => true
  | _ => false
  end.

(** The number of keys of a mapping or of characters of a string, the two
    iterables other than a list that a document can hold. *)
Definition container_size (v : json) : option nat :=
  match v with
  | JObj fields => Some (length fields)
  | JStr s => Some (length s)
  | _ => None
  end.

(** Values that accept the format specification [<w]. *)
Definition formattable (v : json) : bool :=
  match v with
  | JStr _ | JInt _ | JBool _ | JFloat _ _ => true
  | JNull | JArr _ | JObj _ => false
  end.

(** The text that [format] writes for a value before it pads it: a string
    itself, the decimal digits of an integer, [1] or [0] for a boolean, the
    digits of a float; the other values have none. *)
Definition field_text (v : json) : option pystr :=
  match v with
  | JStr s => Some s
  | JInt z => Some (str_of_int z)
  | JBool b => Some (str_of_int (if b then 1 else 0))
  | JFloat _ digits => Some digits
  | JNull | JArr _ | JObj _ => None
  end.

(** Offset of the COMMENT column: the widths 20, 30, 5 and 10, each followed
    by one space. *)
Definition comment_column : nat := 20 + 1 + 30 + 1 + 5 + 1 + 10 + 1.

(** The envelope around any value bound to [nodes]. *)
Definition envelope_of (v : json) : json :=
  JObj [ (lit "data",
    JObj [ (lit "repository",
      JObj [ (lit "pullRequest",
        JObj [ (lit "reviewThreads", JObj [ (lit "nodes", v) ]) ]) ]) ]) ].

(** A host on which the path [p] exists but cannot be opened or decoded. *)
Definition unreadable_file (p : pystr) (e : exn) : host :=
  mkHost (fun q => str_eqb q p) (fun _ => Raise e) utf8_encodes.

(** An open thread attached to a file, not to a line: [line] is [null]. *)
Definition thread_null_line : list (pystr * json) :=
  [ (lit "id", JStr (lit "T7"));
    (lit "path", JStr (lit "e.py"));
    (lit "line", JNull);
    (lit "isOutdated", JBool false);
    (lit "isResolved", JBool false);
    (lit "comments",
     JObj [ (lit "nodes", JArr [ JObj [ (lit "body", JStr (lit "file note")) ] ]) ]) ].

(** The body of the first comment of [thread_T3]. *)
Definition body_T3 : pystr :=
  lit "please rename this" ++ [newline]
  ++ lit "and split the function in two" ++ [newline] ++ lit "before merging".

(** A thread identifier of 26 characters, a path of 34 characters, a line
    number of 6 digits, and the row they give. *)
Definition long_id : pystr := lit "PRRT_kwDOAbCdEf5aBcDeFgHiJ".

Definition long_path : pystr := lit "src/very/deeply/nested/module/a.py".

Definition row_long_fields : pystr :=
  lit "PRRT_kwDOAbCdEf5aBcDeFgHiJ src/very/deeply/nested/module/a.py 123456 OPEN       fix".

(** A record of the data model whose comment holds the lone surrogate
    U+D800, as [json.load] decodes the escape [\ud800]. *)
Definition thread_surrogate : json :=
  JObj [ (lit "id", JStr (lit "T9"));
         (lit "path", JStr (lit "g.py"));
         (lit "line", JInt 2);
         (lit "isOutdated", JBool false);
         (lit "isResolved", JBool false);
         (lit "comments",
          JObj [ (lit "nodes",
                  JArr [ JObj [ (lit "body",
                                 JStr (lit "bad " ++ [55296%N])) ] ]) ]) ].

(** An open thread whose first comment has a [null] body. *)
Definition thread_null_body : list (pystr * json) :=
  [ (lit "id", JStr (lit "T8"));
    (lit "path", JStr (lit "f.py"));
    (lit "line", JInt 3);
    (lit "isOutdated", JBool false);
    (lit "isResolved", JBool false);
    (lit "comments",
     JObj [ (lit "nodes", JArr [ JObj [ (lit "body", JNull) ] ]) ]) ].

(** ** Basic facts *)

Arguments lit : simpl never.

(** One iteration is its pure part followed by at most one [print]: a row is
    printed whole or not at all, and a raised exception leaves both streams
    as they were. *)
Lemma thread_body_row (h : host) (t : json) (w : world) :
  thread_body h t w =
  match thread_row t with
  | Ok None => (Normal tt, w)
  | Ok (Some row) => print h row w
  | Raise e => (Uncaught e, w)
  end.
Proof.
  unfold thread_body, thread_row, bind, lift, rbind.
  destruct (skip_test t) as [[|]|e]; try reflexivity.
  destruct (subscript t (lit "id")) as [tid|e]; try reflexivity.
  destruct (subscript t (lit "path")) as [path|e]; try reflexivity.
  destruct (subscript t (lit "line")) as [line|e]; try reflexivity.
  destruct (comment_text t) as [body|e]; try reflexivity.
  destruct (format_row tid path line body) as [row|e]; reflexivity.
Qed.

Lemma for_threads_cons (h : host) (t : json) (rest : list json) (w : world) :
  for_threads h (t :: rest) w =
  match thread_row t with
  | Ok None => for_threads h rest w
  | Ok (Some row) =>
      if encodable h row
      then for_threads h rest (mkWorld (stdout w ++ [row]) (stderr w))
      else (Uncaught UnicodeEncodeError, w)
  | Raise e => (Uncaught e, w)
  end.
Proof.
  simpl. unfold bind. rewrite thread_body_row.
  destruct (thread_row t) as [[row|]|e]; try reflexivity.
  unfold print. destruct (encodable h row); reflexivity.
Qed.

(** The loop never calls [sys.exit] and never writes to the diagnostic
    stream. *)
Lemma for_threads_flow (h : host) (ts : list json) (w : world) :
  (exists w', for_threads h ts w = (Normal tt, w')) \/
  (exists e w', for_threads h ts w = (Uncaught e, w')).
Proof.
  revert w. induction ts as [|t rest IH]; intro w.
  - left. exists w. reflexivity.
  - rewrite for_threads_cons.
    destruct (thread_row t) as [[row|]|e]; auto.
    + destruct (encodable h row); auto.
      right. exists UnicodeEncodeError, w. reflexivity.
    + right. exists e, w. reflexivity.
Qed.

Lemma ljust_length (w : nat) (s : pystr) : w <= length (ljust w s).
Proof.
  unfold ljust. rewrite length_app, repeat_length. lia.
Qed.

Lemma slice_to_length (n : nat) (s : pystr) : length (slice_to n s) <= n.
Proof. unfold slice_to. apply firstn_le_length. Qed.

Lemma replace_newlines_clean (s : pystr) : ~ In newline (replace_newlines s).
Proof.
  unfold replace_newlines. intro H. apply in_map_iff in H.
  destruct H as [c [Hc _]].
  destruct (N.eqb c newline) eqn:E.
  - discriminate Hc.
  - apply N.eqb_neq in E. contradiction.
Qed.

Lemma slice_to_In (n : nat) (s : pystr) (c : codepoint) :
  In c (slice_to n s) -> In c s.
Proof.
  unfold slice_to. intro H. rewrite <- (firstn_skipn n s).
  apply in_or_app. left. exact H.
Qed.

(** The run once the argument check and the existence check have passed. *)
Lemma run_loaded (h : host) (prog path : pystr) (extra : list pystr) (doc : json) :
  path_exists h path = true ->
  load_json h path = Ok doc ->
  run h (prog :: path :: extra) =
  match navigate doc with
  | Raise e => (Uncaught e, world0)
  | Ok threads =>
      match iterate threads with
      | Raise e => (Uncaught e, mkWorld [header; separator] [])
      | Ok ts => for_threads h ts (mkWorld [header; separator] [])
      end
  end.
Proof.
  intros Hex Hload.
  unfold run, main, inventory, bind. simpl. rewrite Hex. simpl.
  unfold lift. rewrite Hload.
  destruct (navigate doc) as [threads|e]; [|reflexivity].
  simpl.
  destruct (iterate threads) as [ts|e]; [|reflexivity].
  destruct (for_threads h ts _) as [[u|c|e] w']; reflexivity.
Qed.

Lemma header_is_text : header = header_text.
Proof. vm_compute. reflexivity. Qed.

Lemma separator_is_text : separator = separator_text.
Proof. vm_compute. reflexivity. Qed.

(** ** Navigation *)

Lemma navigate_chain (doc : json) :
  navigate doc =
  (let? rt := get_chain intermediate_keys doc in
   get_default rt (lit "nodes") (JArr [])).
Proof.
  unfold navigate, intermediate_keys. simpl get_chain. unfold rbind.
  repeat match goal with
  | |- context [get_default ?v ?k (JObj [])] =>
      destruct (get_default v k (JObj [])); try reflexivity
  end.
Qed.

Lemma get_chain_empty (ks : list pystr) : get_chain ks (JObj []) = Ok (JObj []).
Proof.
  induction ks as [|k ks IH]; simpl; [reflexivity | exact IH].
Qed.

(** Past a key that is absent, the remaining [get] calls all take their
    default, so the walk ends in the empty sequence. *)
Lemma chain_absent (last : pystr) (ks : list pystr) (v : json) :
  key_absent_on_path (ks ++ [last]) v = true ->
  (let? rt := get_chain ks v in get_default rt last (JArr [])) = Ok (JArr []).
Proof.
  revert v. induction ks as [|k ks IH]; intros v H.
  - simpl in *. destruct v; try discriminate H.
    simpl. destruct (dict_lookup last fields); [discriminate H | reflexivity].
  - simpl in H. destruct v; try discriminate H.
    simpl get_chain. unfold get_default at 1.
    destruct (dict_lookup k fields) as [v'|].
    + simpl rbind at 1. apply IH. exact H.
    + simpl rbind at 1. rewrite get_chain_empty. reflexivity.
Qed.

Lemma navigate_absent (doc : json) :
  key_absent_on_path envelope_keys doc = true ->
  navigate doc = Ok (JArr []).
Proof.
  intro H. rewrite navigate_chain. apply chain_absent. exact H.
Qed.

(** A non-mapping bound to a key of the chain has no [get] method, so the
    next [get] raises. *)
Lemma chain_non_mapping (ks : list pystr) (v : json) (k : pystr) (d : json) :
  non_mapping_on_path ks v = true ->
  (let? rt := get_chain ks v in get_default rt k d) = Raise AttributeError.
Proof.
  revert v. induction ks as [|k1 ks IH]; intros v H.
  - discriminate H.
  - simpl in H. destruct v; try discriminate H.
    change (get_chain (k1 :: ks) (JObj fields))
      with (let? x := get_default (JObj fields) k1 (JObj []) in get_chain ks x).
    unfold get_default at 1.
    destruct (dict_lookup k1 fields) as [v'|]; [|discriminate H].
    unfold rbind at 2.
    destruct v'; try (apply IH; exact H);
      (destruct ks as [|k2 ks]; [reflexivity|]);
      change (get_chain (k2 :: ks) ?x)
        with (let? y := get_default x k2 (JObj []) in get_chain ks y);
      reflexivity.
Qed.

Lemma navigate_non_mapping (doc : json) :
  non_mapping_on_path intermediate_keys doc = true ->
  navigate doc = Raise AttributeError.
Proof.
  intro H. rewrite navigate_chain. apply chain_non_mapping. exact H.
Qed.

(** ** Command line and missing file *)

(** C8: invoked without a file-path argument, the script writes the usage
    message to the diagnostic stream and exits with status 1; nothing goes to
    standard output, and the outcome is the same on every host, so the file
    system is not consulted. *)
Theorem usage_error_without_argument (h : host) (argv : list pystr) :
  length argv < 2 ->
  run h argv = (Exit 1, mkWorld [] [lit "Usage: uv run pr.py <threads.json>"])
  /\ exit_status (fst (run h argv)) = 1%Z.
Proof.
  intro Hlen.
  assert (E : run h argv =
              (Exit 1, mkWorld [] [lit "Usage: uv run pr.py <threads.json>"])).
  { unfold run, main, bind.
    destruct (Nat.ltb_spec (length argv) 2) as [_|Hge]; [reflexivity | lia]. }
  rewrite E. split; reflexivity.
Qed.

Lemma usage_error_without_argument_witness :
  run (single_file (lit "t.json") scenario_document) [lit "pr.py"] =
    (Exit 1, mkWorld [] [lit "Usage: uv run pr.py <threads.json>"])
  /\ exit_status (fst (run (single_file (lit "t.json") scenario_document)
                           [lit "pr.py"])) = 1%Z.
Proof.
  apply (usage_error_without_argument
           (single_file (lit "t.json") scenario_document) [lit "pr.py"]).
  simpl. lia.
Defined.

(** C5: for a path that does not reference an existing file, the script
    writes [Error: <path> not found] to the diagnostic stream, exits with
    status 1 and writes nothing to standard output. *)
Theorem missing_file_error (h : host) (prog path : pystr) (extra : list pystr) :
  path_exists h path = false ->
  run h (prog :: path :: extra) =
    (Exit 1, mkWorld [] [lit "Error: " ++ path ++ lit " not found"])
  /\ exit_status (fst (run h (prog :: path :: extra))) = 1%Z
  /\ stdout (snd (run h (prog :: path :: extra))) = [].
Proof.
  intro Hex.
  assert (E : run h (prog :: path :: extra) =
              (Exit 1, mkWorld [] [lit "Error: " ++ path ++ lit " not found"])).
  { unfold run, main, inventory, bind. simpl. rewrite Hex. reflexivity. }
  rewrite E. repeat split; reflexivity.
Qed.

Lemma missing_file_error_witness :
  run (single_file (lit "t.json") scenario_document)
      [lit "pr.py"; lit "absent.json"] =
    (Exit 1, mkWorld [] [lit "Error: absent.json not found"])
  /\ exit_status (fst (run (single_file (lit "t.json") scenario_document)
                           [lit "pr.py"; lit "absent.json"])) = 1%Z
  /\ stdout (snd (run (single_file (lit "t.json") scenario_document)
                      [lit "pr.py"; lit "absent.json"])) = [].
Proof.
  exact (missing_file_error (single_file (lit "t.json") scenario_document)
           (lit "pr.py") (lit "absent.json") [] eq_refl).
Defined.

(** ** Navigation to the threads *)

(** C3: when one of the keys [data], [repository], [pullRequest],
    [reviewThreads], [nodes] is absent from the mapping the keys before it
    lead to, navigation yields the empty sequence, and the script prints
    exactly the header and the separator of 100 dashes and exits with
    status 0. *)
Theorem absent_key_prints_header_only
    (h : host) (prog path : pystr) (extra : list pystr) (doc : json) :
  path_exists h path = true ->
  load_json h path = Ok doc ->
  key_absent_on_path envelope_keys doc = true ->
  navigate doc = Ok (JArr [])
  /\ run h (prog :: path :: extra) = (Normal tt, mkWorld [header; separator] [])
  /\ exit_status (fst (run h (prog :: path :: extra))) = 0%Z
  /\ separator = repeat dash 100.
Proof.
  intros Hex Hload Habs.
  pose proof (navigate_absent doc Habs) as Hnav.
  assert (E : run h (prog :: path :: extra) =
              (Normal tt, mkWorld [header; separator] [])).
  { rewrite (run_loaded h prog path extra doc Hex Hload), Hnav. reflexivity. }
  rewrite E. repeat split; try reflexivity. exact Hnav.
Qed.

Lemma absent_key_prints_header_only_witness :
  navigate partial_document = Ok (JArr [])
  /\ run (single_file (lit "t.json") partial_document)
         [lit "pr.py"; lit "t.json"] =
       (Normal tt, mkWorld [header; separator] [])
  /\ exit_status (fst (run (single_file (lit "t.json") partial_document)
                           [lit "pr.py"; lit "t.json"])) = 0%Z
  /\ separator = repeat dash 100.
Proof.
  exact (absent_key_prints_header_only
           (single_file (lit "t.json") partial_document)
           (lit "pr.py") (lit "t.json") [] partial_document
           eq_refl eq_refl eq_refl).
Defined.

(** C10: when one of the keys [data], [repository], [pullRequest],
    [reviewThreads] is present but bound to a value that is not a mapping,
    the script ends with an uncaught [AttributeError] before anything is
    printed, instead of treating the value as empty. *)
Theorem non_mapping_is_fatal
    (h : host) (prog path : pystr) (extra : list pystr) (doc : json) :
  path_exists h path = true ->
  load_json h path = Ok doc ->
  non_mapping_on_path intermediate_keys doc = true ->
  navigate doc = Raise AttributeError
  /\ run h (prog :: path :: extra) = (Uncaught AttributeError, world0)
  /\ exit_status (fst (run h (prog :: path :: extra))) = 1%Z.
Proof.
  intros Hex Hload Hnm.
  pose proof (navigate_non_mapping doc Hnm) as Hnav.
  assert (E : run h (prog :: path :: extra) = (Uncaught AttributeError, world0)).
  { rewrite (run_loaded h prog path extra doc Hex Hload), Hnav. reflexivity. }
  rewrite E. repeat split; try reflexivity. exact Hnav.
Qed.

Lemma non_mapping_is_fatal_witness :
  navigate null_repository_document = Raise AttributeError
  /\ run (single_file (lit "t.json") null_repository_document)
         [lit "pr.py"; lit "t.json"] = (Uncaught AttributeError, world0)
  /\ exit_status (fst (run (single_file (lit "t.json") null_repository_document)
                           [lit "pr.py"; lit "t.json"])) = 1%Z.
Proof.
  exact (non_mapping_is_fatal
           (single_file (lit "t.json") null_repository_document)
           (lit "pr.py") (lit "t.json") [] null_repository_document
           eq_refl eq_refl eq_refl).
Defined.

(** ** The scenario *)

(** C2: on the two-thread document of the specification the script prints
    exactly the header, the separator and one row for [T1], with status
    [OPEN] and comment [line one line two]; no row for [T2]. *)
Theorem scenario_output (h : host) (prog path : pystr) (extra : list pystr) :
  path_exists h path = true ->
  load_json h path = Ok scenario_document ->
  run h (prog :: path :: extra) =
    (Normal tt, mkWorld [header_text; separator_text; row_T1_text] []).
Proof.
  intros Hex Hload.
  rewrite (run_loaded h prog path extra scenario_document Hex Hload).
  vm_compute. reflexivity.
Qed.

Lemma scenario_output_witness :
  run (single_file (lit "threads.json") scenario_document)
      [lit "pr.py"; lit "threads.json"] =
    (Normal tt, mkWorld [header_text; separator_text; row_T1_text] []).
Proof.
  exact (scenario_output (single_file (lit "threads.json") scenario_document)
           (lit "pr.py") (lit "threads.json") [] eq_refl eq_refl).
Defined.

(** ** The loop *)

Lemma for_threads_app (h : host) (pre post : list json) (w : world) :
  for_threads h (pre ++ post) w =
  match for_threads h pre w with
  | (Normal _, w') => for_threads h post w'
  | (Exit c, w') => (Exit c, w')
  | (Uncaught e, w') => (Uncaught e, w')
  end.
Proof.
  revert w. induction pre as [|t pre IH]; intro w.
  - reflexivity.
  - simpl app. rewrite !for_threads_cons.
    destruct (thread_row t) as [[row|]|e]; try apply IH; try reflexivity.
    destruct (encodable h row); [apply IH | reflexivity].
Qed.

Lemma subscript_lookup (o : list (pystr * json)) (k : pystr) (v : json) :
  dict_lookup k o = Some v -> subscript (JObj o) k = Ok v.
Proof. intro H. unfold subscript. rewrite H. reflexivity. Qed.

Lemma subscript_absent (o : list (pystr * json)) (k : pystr) :
  dict_lookup k o = None -> subscript (JObj o) k = Raise KeyError.
Proof. intro H. unfold subscript. rewrite H. reflexivity. Qed.

Lemma flag_subscript (k : pystr) (t : json) (b : bool) :
  flag k t = Some b -> exists v, subscript t k = Ok v /\ truthy v = b.
Proof.
  destruct t; try discriminate. simpl.
  destruct (dict_lookup k fields) as [v|]; try discriminate.
  intro H. injection H as H. exists v. split; [reflexivity | exact H].
Qed.

(** The test of the [if] when both flags are present. *)
Lemma skip_test_flags (t : json) (bo br : bool) :
  flag (lit "isOutdated") t = Some bo ->
  flag (lit "isResolved") t = Some br ->
  skip_test t = Ok (bo || br).
Proof.
  intros Ho Hr.
  destruct (flag_subscript _ _ _ Ho) as [vo [Eo To]].
  destruct (flag_subscript _ _ _ Hr) as [vr [Er Tr]].
  unfold skip_test. rewrite Eo. simpl. rewrite To.
  destruct bo; [reflexivity|]. rewrite Er. simpl. rewrite Tr. reflexivity.
Qed.

(** The right operand of [or] is not evaluated when the left one is true. *)
Lemma skip_test_outdated (t : json) :
  flag (lit "isOutdated") t = Some true -> skip_test t = Ok true.
Proof.
  intro Ho. destruct (flag_subscript _ _ _ Ho) as [vo [Eo To]].
  unfold skip_test. rewrite Eo. simpl. rewrite To. reflexivity.
Qed.

(** Conversely, the test answers only when the flags it read are present. *)
Lemma skip_test_false (t : json) :
  skip_test t = Ok false -> is_open t = true.
Proof.
  unfold skip_test, is_open, flag, subscript.
  destruct t; try discriminate.
  destruct (dict_lookup (lit "isOutdated") fields) as [vo|]; try discriminate.
  simpl. destruct (truthy vo); try discriminate.
  destruct (dict_lookup (lit "isResolved") fields) as [vr|]; try discriminate.
  simpl. destruct (truthy vr); [discriminate | reflexivity].
Qed.

(** The comment text is computed only from a first comment shaped as the
    data model says, and is then the COMMENT field of the specification. *)
Lemma comment_text_spec (t : json) (body : pystr) :
  comment_text t = Ok body ->
  exists raw, first_comment_body t = Some raw /\ body = spec_comment raw.
Proof.
  unfold comment_text, first_comment_body, subscript.
  destruct t; try discriminate.
  destruct (dict_lookup (lit "comments") fields) as [c|]; try discriminate.
  simpl rbind at 1.
  destruct c as [| | | | |l|c]; try discriminate.
  destruct (dict_lookup (lit "nodes") c) as [n|]; try discriminate.
  simpl rbind at 1.
  destruct n as [| | | |s|l|o]; try discriminate.
  - destruct s; discriminate.
  - destruct l as [|f rest]; try discriminate.
    simpl rbind at 1.
    destruct f as [| | | | |l|f]; try discriminate.
    destruct (dict_lookup (lit "body") f) as [b|]; try discriminate.
    simpl rbind at 1.
    destruct b as [| | | |raw| |]; try discriminate.
    simpl. intro H. injection H as H. exists raw. split; [reflexivity|].
    symmetry. exact H.
Qed.

Lemma comment_text_of_body (t : json) (raw : pystr) :
  first_comment_body t = Some raw -> comment_text t = Ok (spec_comment raw).
Proof.
  unfold comment_text, first_comment_body, subscript.
  destruct t; try discriminate.
  destruct (dict_lookup (lit "comments") fields) as [c|]; try discriminate.
  destruct c as [| | | | |l|c]; try discriminate.
  simpl rbind at 1.
  destruct (dict_lookup (lit "nodes") c) as [n|]; try discriminate.
  destruct n as [| | | |s|l|o]; try discriminate.
  destruct l as [|f rest]; try discriminate.
  destruct f as [| | | | |l|f]; try discriminate.
  simpl rbind at 1. simpl rbind at 1.
  destruct (dict_lookup (lit "body") f) as [b|]; try discriminate.
  destruct b as [| | | |raw'| |]; try discriminate.
  intro H. injection H as H. subst raw'. reflexivity.
Qed.

Lemma spec_comment_length (raw : pystr) : length (spec_comment raw) <= 50.
Proof. apply (slice_to_length 50 (replace_newlines raw)). Qed.

Lemma spec_comment_clean (raw : pystr) : ~ In newline (spec_comment raw).
Proof.
  intro H. apply (replace_newlines_clean raw).
  apply (slice_to_In 50). exact H.
Qed.

(** What a printed row is made of. *)
Lemma thread_row_printed (t : json) (ln : pystr) :
  thread_row t = Ok (Some ln) ->
  is_open t = true /\
  exists cols raw,
    thread_columns t = Ok cols /\ first_comment_body t = Some raw /\
    ln = cols ++ spec_comment raw.
Proof.
  unfold thread_row, thread_columns, format_row.
  destruct (skip_test t) as [[|]|e] eqn:Es; try discriminate.
  simpl rbind at 1.
  destruct (subscript t (lit "id")) as [tid|e]; try discriminate.
  destruct (subscript t (lit "path")) as [path|e]; try discriminate.
  destruct (subscript t (lit "line")) as [line|e]; try discriminate.
  simpl.
  destruct (comment_text t) as [body|e] eqn:Ec; try discriminate.
  simpl.
  destruct (row_columns tid path line) as [cols|e]; try discriminate.
  simpl. intro H. injection H as H.
  split; [apply skip_test_false; exact Es|].
  destruct (comment_text_spec t body Ec) as [raw [Hraw Hbody]].
  exists cols, raw. subst. auto.
Qed.

Lemma thread_row_skipped (t : json) :
  skip_test t = Ok true -> thread_row t = Ok None.
Proof. intro H. unfold thread_row. rewrite H. reflexivity. Qed.

(** ** Skipped threads *)

(** C1: a thread record whose [isOutdated] or [isResolved] flag is true gets
    no row, whatever its other fields are or lack, and the loop goes on with
    the next thread: the run is the one of the input without that thread. *)
Theorem skipped_thread_prints_nothing
    (h : host) (pre post : list json) (t : json) (w : world) :
  flag (lit "isOutdated") t = Some true
  \/ (flag (lit "isResolved") t = Some true
      /\ flag (lit "isOutdated") t <> None) ->
  thread_body h t w = (Normal tt, w)
  /\ for_threads h (t :: post) w = for_threads h post w
  /\ for_threads h (pre ++ t :: post) w = for_threads h (pre ++ post) w.
Proof.
  intro H.
  assert (Hrow : thread_row t = Ok None).
  { apply thread_row_skipped. destruct H as [Ho | [Hr Ho]].
    - apply skip_test_outdated. exact Ho.
    - destruct (flag (lit "isOutdated") t) as [bo|] eqn:Eo; [|congruence].
      rewrite (skip_test_flags t bo true Eo Hr). rewrite orb_true_r.
      reflexivity. }
  split; [|split].
  - rewrite thread_body_row, Hrow. reflexivity.
  - rewrite for_threads_cons, Hrow. reflexivity.
  - rewrite !for_threads_app.
    destruct (for_threads h pre w) as [[u|c|e] w']; try reflexivity.
    rewrite for_threads_cons, Hrow. reflexivity.
Qed.

Lemma skipped_thread_prints_nothing_witness :
  thread_body plain_host thread_resolved_bare world0 = (Normal tt, world0)
  /\ for_threads plain_host (thread_resolved_bare :: [thread_T3]) world0 =
     for_threads plain_host [thread_T3] world0
  /\ for_threads plain_host ([thread_T1] ++ thread_resolved_bare :: [thread_T3]) world0 =
     for_threads plain_host ([thread_T1] ++ [thread_T3]) world0.
Proof.
  apply (skipped_thread_prints_nothing plain_host [thread_T1] [thread_T3]
           thread_resolved_bare world0).
  right. split; [reflexivity | discriminate].
Defined.

(** ** The two flags *)

(** C9 as stated fails: a thread whose [isOutdated] is true and which has no
    [isResolved] key is skipped, and the run ends normally with the header
    and the separator only. *)
Lemma resolved_flag_not_required_counterexample :
  flag (lit "isOutdated") thread_outdated_only = Some true
  /\ flag (lit "isResolved") thread_outdated_only = None
  /\ thread_body plain_host thread_outdated_only world0 = (Normal tt, world0)
  /\ run (single_file (lit "t.json") (envelope [thread_outdated_only]))
         [lit "pr.py"; lit "t.json"] =
       (Normal tt, mkWorld [header_text; separator_text] []).
Proof.
  repeat split; vm_compute; reflexivity.
Qed.

(** C9, amended: [isOutdated] is required for every thread record reached:
    when it is absent the run ends with an uncaught [KeyError] before the
    skip decision, even if [isResolved] is present and true.  [isResolved]
    is required only when [isOutdated] is present and false: when it is then
    absent the run ends the same way.  Nothing is printed for the thread. *)
Theorem flags_required_in_order
    (h : host) (o : list (pystr * json)) (rest : list json) (w : world) :
  dict_lookup (lit "isOutdated") o = None
  \/ (flag (lit "isOutdated") (JObj o) = Some false
      /\ dict_lookup (lit "isResolved") o = None) ->
  skip_test (JObj o) = Raise KeyError
  /\ thread_body h (JObj o) w = (Uncaught KeyError, w)
  /\ for_threads h (JObj o :: rest) w = (Uncaught KeyError, w).
Proof.
  intro H.
  assert (Hs : skip_test (JObj o) = Raise KeyError).
  { unfold skip_test. destruct H as [Ho | [Ho Hr]].
    - rewrite (subscript_absent o _ Ho). reflexivity.
    - destruct (flag_subscript _ _ _ Ho) as [vo [Eo To]].
      rewrite Eo. unfold rbind at 1. rewrite To.
      rewrite (subscript_absent o _ Hr). reflexivity. }
  assert (Hrow : thread_row (JObj o) = Raise KeyError).
  { unfold thread_row. rewrite Hs. reflexivity. }
  split; [exact Hs | split].
  - rewrite thread_body_row, Hrow. reflexivity.
  - rewrite for_threads_cons, Hrow. reflexivity.
Qed.

Lemma flags_required_in_order_witness :
  (skip_test (JObj thread_without_outdated) = Raise KeyError
   /\ thread_body plain_host (JObj thread_without_outdated) world0 =
      (Uncaught KeyError, world0)
   /\ for_threads plain_host (JObj thread_without_outdated :: [thread_T1]) world0 =
      (Uncaught KeyError, world0))
  /\ (skip_test (JObj thread_without_resolved) = Raise KeyError
   /\ thread_body plain_host (JObj thread_without_resolved) world0 =
      (Uncaught KeyError, world0)
   /\ for_threads plain_host (JObj thread_without_resolved :: [thread_T1]) world0 =
      (Uncaught KeyError, world0)).
Proof.
  split.
  - exact (flags_required_in_order plain_host thread_without_outdated
             [thread_T1] world0
             (or_introl eq_refl)).
  - exact (flags_required_in_order plain_host thread_without_resolved
             [thread_T1] world0
             (or_intror (conj eq_refl eq_refl))).
Defined.

(** ** Missing fields of an open thread *)

Lemma comment_text_missing (o : list (pystr * json)) :
  dict_lookup (lit "comments") o = None
  \/ (exists c, dict_lookup (lit "comments") o = Some (JObj c)
       /\ (dict_lookup (lit "nodes") c = None
           \/ dict_lookup (lit "nodes") c = Some (JArr [])
           \/ exists f rest,
                dict_lookup (lit "nodes") c = Some (JArr (JObj f :: rest))
                /\ dict_lookup (lit "body") f = None)) ->
  comment_text (JObj o) = Raise KeyError
  \/ comment_text (JObj o) = Raise IndexError.
Proof.
  intros [Hc | [c [Hc [Hn | [Hn | [f [rest [Hn Hb]]]]]]]];
    [left | left | right | left];
    unfold comment_text; rewrite ?(subscript_lookup o _ _ Hc).
  - rewrite (subscript_absent o _ Hc). reflexivity.
  - unfold rbind at 1. rewrite (subscript_absent c _ Hn). reflexivity.
  - unfold rbind at 1. rewrite (subscript_lookup c _ _ Hn). reflexivity.
  - unfold rbind at 1. rewrite (subscript_lookup c _ _ Hn).
    unfold rbind at 1. simpl subscript0. unfold rbind at 1.
    rewrite (subscript_absent f _ Hb). reflexivity.
Qed.

Lemma thread_row_missing (o : list (pystr * json)) :
  flag (lit "isOutdated") (JObj o) = Some false ->
  flag (lit "isResolved") (JObj o) = Some false ->
  missing_required_field o ->
  thread_row (JObj o) = Raise KeyError \/ thread_row (JObj o) = Raise IndexError.
Proof.
  intros Ho Hr Hm.
  unfold thread_row. rewrite (skip_test_flags _ false false Ho Hr).
  simpl rbind at 1. cbv iota.
  unfold subscript at 1 2 3.
  destruct (dict_lookup (lit "id") o) as [tid|] eqn:Eid;
    [simpl rbind at 1 | left; reflexivity].
  destruct (dict_lookup (lit "path") o) as [path|] eqn:Epath;
    [simpl rbind at 1 | left; reflexivity].
  destruct (dict_lookup (lit "line") o) as [line|] eqn:Eline;
    [simpl rbind at 1 | left; reflexivity].
  assert (Hc : comment_text (JObj o) = Raise KeyError
               \/ comment_text (JObj o) = Raise IndexError).
  { apply comment_text_missing.
    destruct Hm as [H|H|H|H|c H1 H2|c H1 H2|c f rest H1 H2 H3];
      try congruence.
    - left. exact H.
    - right. exists c. split; [exact H1 | left; exact H2].
    - right. exists c. split; [exact H1 | right; left; exact H2].
    - right. exists c. split; [exact H1 | right; right].
      exists f, rest. split; assumption. }
  destruct Hc as [Hc|Hc]; rewrite Hc; [left | right]; reflexivity.
Qed.

(** C6: for a thread that is not skipped (both flags false), a missing [id],
    [path], [line] or first comment body, an empty sequence of comments
    included, ends the run with an uncaught exception: no row, not even a
    partial one, is printed for the thread, the threads after it are not
    processed, and the script exits with status 1. *)
Theorem missing_field_is_fatal
    (h : host) (prog path : pystr) (extra : list pystr) (doc : json)
    (pre post : list json) (o : list (pystr * json)) (w : world) :
  flag (lit "isOutdated") (JObj o) = Some false ->
  flag (lit "isResolved") (JObj o) = Some false ->
  missing_required_field o ->
  path_exists h path = true ->
  load_json h path = Ok doc ->
  navigate doc = Ok (JArr (pre ++ JObj o :: post)) ->
  (exists e, (e = KeyError \/ e = IndexError)
     /\ thread_body h (JObj o) w = (Uncaught e, w)
     /\ for_threads h (JObj o :: post) w = (Uncaught e, w))
  /\ (exists e w', run h (prog :: path :: extra) = (Uncaught e, w')
        /\ exit_status (fst (run h (prog :: path :: extra))) = 1%Z).
Proof.
  intros Ho Hr Hm Hex Hload Hnav.
  assert (Hrow : exists e, (e = KeyError \/ e = IndexError)
                           /\ thread_row (JObj o) = Raise e).
  { destruct (thread_row_missing o Ho Hr Hm) as [H|H]; eauto. }
  destruct Hrow as [e [He Hrow]].
  split.
  - exists e. split; [exact He | split].
    + rewrite thread_body_row, Hrow. reflexivity.
    + rewrite for_threads_cons, Hrow. reflexivity.
  - rewrite (run_loaded h prog path extra doc Hex Hload), Hnav.
    simpl iterate. cbv iota. rewrite for_threads_app.
    destruct (for_threads_flow h pre (mkWorld [header; separator] []))
      as [[w' E] | [e' [w' E]]]; rewrite E.
    + rewrite for_threads_cons, Hrow. exists e, w'. split; reflexivity.
    + exists e', w'. split; reflexivity.
Qed.

Lemma missing_field_is_fatal_witness :
  (exists e, (e = KeyError \/ e = IndexError)
     /\ thread_body plain_host (JObj thread_without_comments) world0 = (Uncaught e, world0)
     /\ for_threads plain_host (JObj thread_without_comments :: [thread_T3]) world0 =
        (Uncaught e, world0))
  /\ (exists e w',
        run (single_file (lit "t.json")
               (envelope ([thread_T1] ++ JObj thread_without_comments :: [thread_T3])))
            [lit "pr.py"; lit "t.json"] = (Uncaught e, w')
        /\ exit_status
             (fst (run (single_file (lit "t.json")
                          (envelope ([thread_T1] ++ JObj thread_without_comments
                                       :: [thread_T3])))
                       [lit "pr.py"; lit "t.json"])) = 1%Z).
Proof.
  exact (missing_field_is_fatal
           (single_file (lit "t.json")
              (envelope ([thread_T1] ++ JObj thread_without_comments :: [thread_T3])))
           (lit "pr.py") (lit "t.json") []
           (envelope ([thread_T1] ++ JObj thread_without_comments :: [thread_T3]))
           [thread_T1] [thread_T3] thread_without_comments world0
           eq_refl eq_refl
           (empty_comments thread_without_comments
              [ (lit "nodes", JArr []) ] eq_refl eq_refl)
           eq_refl eq_refl eq_refl).
Defined.

(** ** The COMMENT field *)

Lemma comment_row_mono (t : json) (ts : list json) (ln : pystr) :
  comment_row ts ln -> comment_row (t :: ts) ln.
Proof.
  intros [t' [cols [raw [Hin H]]]].
  exists t', cols, raw. split; [right; exact Hin | exact H].
Qed.

Lemma for_threads_rows (h : host) (ts : list json) (w : world) :
  exists rows,
    snd (for_threads h ts w) = mkWorld (stdout w ++ rows) (stderr w)
    /\ Forall (comment_row ts) rows.
Proof.
  revert w. induction ts as [|t ts IH]; intro w.
  - exists []. simpl. rewrite app_nil_r. destruct w; split; [reflexivity | constructor].
  - rewrite for_threads_cons.
    destruct (thread_row t) as [[row|]|e] eqn:Erow;
      [destruct (encodable h row)| |].
    + destruct (IH (mkWorld (stdout w ++ [row]) (stderr w))) as [rows [E F]].
      exists (row :: rows). split.
      * rewrite E. simpl. rewrite <- app_assoc. reflexivity.
      * constructor.
        -- destruct (thread_row_printed t row Erow) as [Hopen [cols [raw [Hc [Hb Hl]]]]].
           exists t, cols, raw.
           repeat split; auto using spec_comment_length, spec_comment_clean.
           left. reflexivity.
        -- eapply Forall_impl; [|exact F]. intro ln. apply comment_row_mono.
    + exists []. simpl. rewrite app_nil_r. destruct w; split; [reflexivity | constructor].
    + destruct (IH w) as [rows [E F]].
      exists rows. split; [exact E|].
      eapply Forall_impl; [|exact F]. intro ln. apply comment_row_mono.
    + exists []. simpl. rewrite app_nil_r. destruct w; split; [reflexivity | constructor].
Qed.

(** The comment of [T3], 63 characters on three lines, is printed on one
    line and cut after its 50th character. *)
Example row_T3_printed :
  for_threads plain_host [thread_T3] world0 = (Normal tt, mkWorld [row_T3_text] []).
Proof. vm_compute. reflexivity. Qed.

(** C4: every row the loop prints is the four columns of an open thread
    followed by the body of that thread's first comment with its newlines
    replaced by spaces and then cut to 50 characters, nothing appended; so
    the COMMENT field holds at most 50 characters and no newline.  For a
    whole run, standard output is empty or is the header, the separator and
    such rows. *)
Theorem comment_field_bounded :
  (forall (h : host) (ts : list json) (w : world),
     exists rows,
       snd (for_threads h ts w) = mkWorld (stdout w ++ rows) (stderr w)
       /\ Forall (comment_row ts) rows)
  /\ (forall (h : host) (argv : list pystr),
        stdout (snd (run h argv)) = []
        \/ exists ts rows,
             stdout (snd (run h argv)) = header :: separator :: rows
             /\ Forall (comment_row ts) rows).
Proof.
  split; [exact for_threads_rows|].
  intros h argv.
  destruct argv as [|prog [|path extra]].
  - left. reflexivity.
  - left. reflexivity.
  - destruct (path_exists h path) eqn:Hex.
    + destruct (load_json h path) as [doc|e] eqn:Hload.
      * rewrite (run_loaded h prog path extra doc Hex Hload).
        destruct (navigate doc) as [threads|e]; [|left; reflexivity].
        destruct (iterate threads) as [ts|e].
        -- right.
           destruct (for_threads_rows h ts (mkWorld [header; separator] []))
             as [rows [E F]].
           exists ts, rows. rewrite E. split; [reflexivity | exact F].
        -- right. exists [], []. split; [reflexivity | constructor].
      * left. unfold run, main, inventory, bind. simpl. rewrite Hex. simpl.
        unfold lift. rewrite Hload. reflexivity.
    + left. unfold run, main, inventory, bind. simpl. rewrite Hex. reflexivity.
Qed.

(** ** Order of the rows *)

Lemma well_formed_row (t : json) :
  well_formed_thread t = true ->
  thread_row t = Ok (if is_open t then Some (spec_row t) else None).
Proof.
  intro Hwf.
  destruct t as [| | | | | |o]; try discriminate Hwf.
  unfold well_formed_thread in Hwf.
  destruct (dict_lookup (lit "isOutdated") o) as [[|bo| | | | |]|] eqn:Eo;
    try discriminate Hwf.
  destruct (dict_lookup (lit "isResolved") o) as [[|br| | | | |]|] eqn:Er;
    try discriminate Hwf.
  assert (Fo : flag (lit "isOutdated") (JObj o) = Some bo)
    by (simpl; rewrite Eo; reflexivity).
  assert (Fr : flag (lit "isResolved") (JObj o) = Some br)
    by (simpl; rewrite Er; reflexivity).
  unfold thread_row, is_open.
  rewrite (skip_test_flags _ bo br Fo Fr), Fo, Fr. simpl rbind at 1.
  destruct bo; [reflexivity|]. destruct br; [reflexivity|].
  simpl orb in *. cbv iota in *.
  unfold spec_row.
  destruct (dict_lookup (lit "id") o) as [[| | | |tid| |]|] eqn:Eid;
    try discriminate Hwf.
  destruct (dict_lookup (lit "path") o) as [[| | | |path| |]|] eqn:Epath;
    try discriminate Hwf.
  destruct (dict_lookup (lit "line") o) as [[| |line| | | |]|] eqn:Eline;
    try discriminate Hwf.
  destruct (first_comment_body (JObj o)) as [raw|] eqn:Eraw;
    try discriminate Hwf.
  rewrite (comment_text_of_body _ raw Eraw).
  cbv beta iota delta [rbind format_row row_columns format_left]. rewrite <- !app_assoc. reflexivity.
Qed.

Lemma for_threads_well_formed (h : host) (ts : list json) (w : world) :
  forallb well_formed_thread ts = true ->
  forallb (encodable h) (map spec_row (filter is_open ts)) = true ->
  for_threads h ts w =
  (Normal tt, mkWorld (stdout w ++ map spec_row (filter is_open ts)) (stderr w)).
Proof.
  revert w. induction ts as [|t ts IH]; intros w Hwf Henc.
  - simpl. rewrite app_nil_r. destruct w; reflexivity.
  - simpl in Hwf. apply andb_true_iff in Hwf. destruct Hwf as [Ht Hts].
    rewrite for_threads_cons, (well_formed_row t Ht).
    simpl filter in *. destruct (is_open t).
    + simpl in Henc. apply andb_true_iff in Henc. destruct Henc as [Hrow Hrest].
      rewrite Hrow, (IH _ Hts Hrest). simpl. rewrite <- app_assoc. reflexivity.
    + apply IH; assumption.
Qed.

(** C7 as stated fails: on a document whose only thread is a record of the
    data model, not skipped, with a lone surrogate in its comment, a UTF-8
    standard output refuses the row; the run ends with an uncaught
    [UnicodeEncodeError] after the header and the separator, and the thread
    has no row. *)
Lemma unencodable_row_counterexample :
  well_formed_thread thread_surrogate = true
  /\ filter is_open [thread_surrogate] = [thread_surrogate]
  /\ run (single_file (lit "t.json") (envelope [thread_surrogate]))
         [lit "pr.py"; lit "t.json"] =
       (Uncaught UnicodeEncodeError, mkWorld [header_text; separator_text] []).
Proof.
  repeat split; vm_compute; reflexivity.
Qed.

(** C7, amended: on a document whose threads are records of the data model
    and whose rows standard output can encode, the rows printed after the
    header and the separator are the rows of the threads that are not
    skipped, one each, in the order of the input; the run ends normally. *)
Theorem rows_follow_input_order
    (h : host) (prog path : pystr) (extra : list pystr) (doc : json)
    (ts : list json) :
  path_exists h path = true ->
  load_json h path = Ok doc ->
  navigate doc = Ok (JArr ts) ->
  forallb well_formed_thread ts = true ->
  forallb (encodable h) (map spec_row (filter is_open ts)) = true ->
  run h (prog :: path :: extra) =
    (Normal tt,
     mkWorld (header :: separator :: map spec_row (filter is_open ts)) []).
Proof.
  intros Hex Hload Hnav Hwf Henc.
  rewrite (run_loaded h prog path extra doc Hex Hload), Hnav.
  simpl iterate. cbv iota.
  rewrite (for_threads_well_formed h ts _ Hwf Henc). reflexivity.
Qed.

Lemma rows_follow_input_order_witness :
  run (single_file (lit "t.json")
         (envelope [thread_T3; thread_T2; thread_resolved_bare; thread_T1]))
      [lit "pr.py"; lit "t.json"] =
    (Normal tt,
     mkWorld (header :: separator
              :: map spec_row
                   (filter is_open
                      [thread_T3; thread_T2; thread_resolved_bare; thread_T1]))
             []).
Proof.
  exact (rows_follow_input_order
           (single_file (lit "t.json")
              (envelope [thread_T3; thread_T2; thread_resolved_bare; thread_T1]))
           (lit "pr.py") (lit "t.json") []
           (envelope [thread_T3; thread_T2; thread_resolved_bare; thread_T1])
           [thread_T3; thread_T2; thread_resolved_bare; thread_T1]
           eq_refl eq_refl eq_refl eq_refl eq_refl).
Defined.

(** ** Further behaviour of [inventory] and of the main block *)

Lemma run_load_failed
    (h : host) (prog path : pystr) (extra : list pystr) (e : exn) :
  path_exists h path = true ->
  load_json h path = Raise e ->
  run h (prog :: path :: extra) = (Uncaught e, world0).
Proof.
  intros Hex Hload.
  unfold run, main, inventory, bind. simpl. rewrite Hex. simpl.
  unfold lift. rewrite Hload. reflexivity.
Qed.

Lemma run_missing_file
    (h : host) (prog path : pystr) (extra : list pystr) :
  path_exists h path = false ->
  run h (prog :: path :: extra) =
    (Exit 1, mkWorld [] [lit "Error: " ++ path ++ lit " not found"]).
Proof.
  intro Hex. unfold run, main, inventory, bind. simpl. rewrite Hex. reflexivity.
Qed.

(** A file that exists but cannot be opened or decoded ends the run with the
    exception of [open] or [json.load]; no table and no message of the
    script's own is printed. *)
Theorem load_failure_is_fatal
    (h : host) (prog path : pystr) (extra : list pystr) (e : exn) :
  path_exists h path = true ->
  load_json h path = Raise e ->
  run h (prog :: path :: extra) = (Uncaught e, world0)
  /\ exit_status (fst (run h (prog :: path :: extra))) = 1%Z.
Proof.
  intros Hex Hload.
  rewrite (run_load_failed h prog path extra e Hex Hload).
  split; reflexivity.
Qed.

Lemma load_failure_is_fatal_witness :
  run (unreadable_file (lit "t.json") ValueError) [lit "pr.py"; lit "t.json"] =
    (Uncaught ValueError, world0)
  /\ exit_status (fst (run (unreadable_file (lit "t.json") ValueError)
                           [lit "pr.py"; lit "t.json"])) = 1%Z.
Proof.
  exact (load_failure_is_fatal (unreadable_file (lit "t.json") ValueError)
           (lit "pr.py") (lit "t.json") [] ValueError eq_refl eq_refl).
Defined.

(** When [nodes] is bound to [null], a boolean or a number, the default is
    not taken: the header and the separator are printed and then the [for]
    statement raises [TypeError]. *)
Theorem nodes_not_iterable_is_fatal
    (h : host) (prog path : pystr) (extra : list pystr) (doc v : json) :
  path_exists h path = true ->
  load_json h path = Ok doc ->
  navigate doc = Ok v ->
  not_iterable v = true ->
  run h (prog :: path :: extra) =
    (Uncaught TypeError, mkWorld [header; separator] [])
  /\ exit_status (fst (run h (prog :: path :: extra))) = 1%Z.
Proof.
  intros Hex Hload Hnav Hv.
  assert (E : run h (prog :: path :: extra) =
              (Uncaught TypeError, mkWorld [header; separator] [])).
  { rewrite (run_loaded h prog path extra doc Hex Hload), Hnav.
    destruct v; try discriminate Hv; reflexivity. }
  rewrite E. split; reflexivity.
Qed.

Lemma nodes_not_iterable_is_fatal_witness :
  run (single_file (lit "t.json") (envelope_of JNull))
      [lit "pr.py"; lit "t.json"] =
    (Uncaught TypeError, mkWorld [header; separator] [])
  /\ exit_status (fst (run (single_file (lit "t.json") (envelope_of JNull))
                           [lit "pr.py"; lit "t.json"])) = 1%Z.
Proof.
  exact (nodes_not_iterable_is_fatal
           (single_file (lit "t.json") (envelope_of JNull))
           (lit "pr.py") (lit "t.json") [] (envelope_of JNull) JNull
           eq_refl eq_refl eq_refl eq_refl).
Defined.

Lemma thread_row_non_mapping (t : json) :
  is_mapping t = false -> thread_row t = Raise TypeError.
Proof.
  intro H. destruct t; try discriminate H; reflexivity.
Qed.

(** An element of [nodes] that is not a mapping, [null] for one, ends the
    run with [TypeError] when the loop reaches it: nothing is printed for it
    and the elements after it are not processed. *)
Theorem non_mapping_thread_is_fatal
    (h : host) (t : json) (post : list json) (w : world) :
  is_mapping t = false ->
  thread_body h t w = (Uncaught TypeError, w)
  /\ for_threads h (t :: post) w = (Uncaught TypeError, w).
Proof.
  intro H. pose proof (thread_row_non_mapping t H) as Hrow. split.
  - rewrite thread_body_row, Hrow. reflexivity.
  - rewrite for_threads_cons, Hrow. reflexivity.
Qed.

Lemma non_mapping_thread_is_fatal_witness :
  thread_body plain_host JNull world0 = (Uncaught TypeError, world0)
  /\ for_threads plain_host (JNull :: [thread_T1]) world0 = (Uncaught TypeError, world0).
Proof.
  exact (non_mapping_thread_is_fatal plain_host JNull [thread_T1] world0
           eq_refl).
Defined.

(** When [nodes] is bound to a mapping or to a string, the loop runs over its
    keys or its characters: an empty one gives the header-only table and a
    normal end, any other one raises [TypeError] at the first element, after
    the header and the separator. *)
Theorem nodes_mapping_or_string
    (h : host) (prog path : pystr) (extra : list pystr) (doc v : json) (n : nat) :
  path_exists h path = true ->
  load_json h path = Ok doc ->
  navigate doc = Ok v ->
  container_size v = Some n ->
  run h (prog :: path :: extra) =
    (if Nat.eqb n 0 then Normal tt else Uncaught TypeError,
     mkWorld [header; separator] []).
Proof.
  intros Hex Hload Hnav Hn.
  rewrite (run_loaded h prog path extra doc Hex Hload), Hnav.
  destruct v as [| | | |s| |fields]; try discriminate Hn;
    simpl in Hn; injection Hn as Hn; subst n; simpl iterate; cbv iota.
  - destruct s as [|c s]; [reflexivity|].
    simpl map. rewrite for_threads_cons. reflexivity.
  - destruct fields as [|kv fields]; [reflexivity|].
    simpl map. rewrite for_threads_cons. reflexivity.
Qed.

Lemma nodes_mapping_or_string_witness :
  run (single_file (lit "t.json")
         (envelope_of (JObj [ (lit "totalCount", JInt 0) ])))
      [lit "pr.py"; lit "t.json"] =
    (Uncaught TypeError, mkWorld [header; separator] []).
Proof.
  exact (nodes_mapping_or_string
           (single_file (lit "t.json")
              (envelope_of (JObj [ (lit "totalCount", JInt 0) ])))
           (lit "pr.py") (lit "t.json") []
           (envelope_of (JObj [ (lit "totalCount", JInt 0) ]))
           (JObj [ (lit "totalCount", JInt 0) ]) 1
           eq_refl eq_refl eq_refl eq_refl).
Defined.

(** The loop leaves the diagnostic stream alone and never ends in
    [sys.exit]. *)
Lemma for_threads_stderr (h : host) (ts : list json) (w : world) :
  stderr (snd (for_threads h ts w)) = stderr w
  /\ forall c, fst (for_threads h ts w) <> Exit c.
Proof.
  split.
  - destruct (for_threads_rows h ts w) as [rows [E _]]. rewrite E. reflexivity.
  - intros c H.
    destruct (for_threads_flow h ts w) as [[w' E] | [e [w' E]]];
      rewrite E in H; discriminate H.
Qed.

(** Whatever the host and the arguments: the exit status is 0 or 1, and it is
    0 exactly when the script ran to its end; the script writes to at most
    one of the two streams, and what it writes to the diagnostic stream is a
    single message followed by [sys.exit(1)]. *)
Theorem run_outcomes (h : host) (argv : list pystr) :
  (exit_status (fst (run h argv)) = 0%Z \/ exit_status (fst (run h argv)) = 1%Z)
  /\ (exit_status (fst (run h argv)) = 0%Z <-> fst (run h argv) = Normal tt)
  /\ (stderr (snd (run h argv)) = []
      \/ (stdout (snd (run h argv)) = []
          /\ fst (run h argv) = Exit 1
          /\ length (stderr (snd (run h argv))) = 1)).
Proof.
  assert (Shape : (exists w, run h argv = (Normal tt, w) /\ stderr w = [])
                  \/ (exists e w, run h argv = (Uncaught e, w) /\ stderr w = [])
                  \/ (exists m, run h argv = (Exit 1, mkWorld [] [m]))).
  { destruct argv as [|prog [|path extra]].
    - right. right. eexists. reflexivity.
    - right. right. eexists. reflexivity.
    - destruct (path_exists h path) eqn:Hex.
      + destruct (load_json h path) as [doc|e] eqn:Hload.
        * rewrite (run_loaded h prog path extra doc Hex Hload).
          destruct (navigate doc) as [threads|e];
            [|right; left; exists e, world0; split; reflexivity].
          destruct (iterate threads) as [ts|e];
            [|right; left; eexists _, _; split; reflexivity].
          pose proof (for_threads_stderr h ts (mkWorld [header; separator] []))
            as [Herr Hexit].
          destruct (for_threads h ts (mkWorld [header; separator] []))
            as [[[]|c|e] w'] eqn:E; simpl in Herr.
          -- left. exists w'. split; [reflexivity | exact Herr].
          -- exfalso. apply (Hexit c). reflexivity.
          -- right. left. exists e, w'. split; [reflexivity | exact Herr].
        * right. left. exists e, world0.
          rewrite (run_load_failed h prog path extra e Hex Hload).
          split; reflexivity.
      + right. right. eexists. apply run_missing_file. exact Hex. }
  destruct Shape as [[w [E Hw]] | [[e [w [E Hw]]] | [m E]]]; rewrite E; simpl.
  - repeat split; auto.
  - repeat split; auto; intro H; discriminate H.
  - repeat split; auto; intro H; discriminate H.
Qed.

Lemma encodable_ext (h1 h2 : host) (s : pystr) :
  (forall c, stdout_encodes h1 c = stdout_encodes h2 c) ->
  encodable h1 s = encodable h2 s.
Proof.
  intro H. unfold encodable, can_encode.
  induction s as [|c s IH]; simpl; [reflexivity|].
  rewrite (H c), IH. reflexivity.
Qed.

Lemma for_threads_ext (h1 h2 : host) (ts : list json) (w : world) :
  (forall c, stdout_encodes h1 c = stdout_encodes h2 c) ->
  for_threads h1 ts w = for_threads h2 ts w.
Proof.
  intro H. revert w. induction ts as [|t ts IH]; intro w.
  - reflexivity.
  - rewrite !for_threads_cons.
    destruct (thread_row t) as [[row|]|e]; try apply IH; try reflexivity.
    rewrite (encodable_ext h1 h2 row H).
    destruct (encodable h2 row); [apply IH | reflexivity].
Qed.

(** The run depends on the command line only through its second entry, and on
    the host only through whether that path exists, what it decodes to if it
    does, and what standard output can encode: the program name, further
    arguments and every other path are ignored. *)
Theorem run_depends_on_path_only
    (h1 h2 : host) (prog1 prog2 path : pystr) (extra1 extra2 : list pystr) :
  path_exists h1 path = path_exists h2 path ->
  (path_exists h1 path = true -> load_json h1 path = load_json h2 path) ->
  (forall c, stdout_encodes h1 c = stdout_encodes h2 c) ->
  run h1 (prog1 :: path :: extra1) = run h2 (prog2 :: path :: extra2).
Proof.
  intros Hex Hload Henc.
  destruct (path_exists h1 path) eqn:E1.
  - specialize (Hload eq_refl). symmetry in Hex.
    destruct (load_json h1 path) as [doc|e] eqn:L1; symmetry in Hload.
    + rewrite (run_loaded h1 prog1 path extra1 doc E1 L1).
      rewrite (run_loaded h2 prog2 path extra2 doc Hex Hload).
      destruct (navigate doc) as [threads|e]; [|reflexivity].
      destruct (iterate threads) as [ts|e]; [|reflexivity].
      apply for_threads_ext. exact Henc.
    + rewrite (run_load_failed h1 prog1 path extra1 e E1 L1).
      rewrite (run_load_failed h2 prog2 path extra2 e Hex Hload). reflexivity.
  - symmetry in Hex.
    rewrite (run_missing_file h1 prog1 path extra1 E1).
    rewrite (run_missing_file h2 prog2 path extra2 Hex). reflexivity.
Qed.

Lemma run_depends_on_path_only_witness :
  run (single_file (lit "t.json") scenario_document)
      [lit "pr.py"; lit "t.json"; lit "--all"] =
  run (mkHost (fun _ => true) (fun _ => Ok scenario_document) utf8_encodes)
      [lit "uv"; lit "t.json"].
Proof.
  apply (run_depends_on_path_only
           (single_file (lit "t.json") scenario_document)
           (mkHost (fun _ => true) (fun _ => Ok scenario_document) utf8_encodes)
           (lit "pr.py") (lit "uv") (lit "t.json") [lit "--all"] []).
  - reflexivity.
  - intros _. reflexivity.
  - intro c. reflexivity.
Defined.

(** ** Further behaviour of the loop *)

Lemma thread_row_none_not_open (t : json) :
  thread_row t = Ok None -> is_open t = false.
Proof.
  unfold thread_row.
  destruct (skip_test t) as [[|]|e] eqn:Es; try discriminate.
  - intros _. unfold skip_test in Es. unfold is_open, flag.
    destruct t as [| | | | | |o]; try discriminate Es.
    unfold subscript in Es.
    destruct (dict_lookup (lit "isOutdated") o) as [vo|]; try discriminate Es.
    simpl in *. destruct (truthy vo); [reflexivity|].
    destruct (dict_lookup (lit "isResolved") o) as [vr|]; try discriminate Es.
    simpl in *. destruct (truthy vr); [reflexivity | discriminate Es].
  - simpl rbind at 1. cbv iota.
    destruct (subscript t (lit "id")); try discriminate.
    destruct (subscript t (lit "path")); try discriminate.
    destruct (subscript t (lit "line")); try discriminate.
    simpl. destruct (comment_text t); try discriminate.
    simpl. destruct (format_row _ _ _ _); discriminate.
Qed.

(** A loop that runs to its end over any list of values, of the data model or
    not, has printed exactly one row for each thread whose two flags are
    false, in the order of the input, and nothing else. *)
Theorem normal_end_rows (h : host) (ts : list json) (w w' : world) :
  for_threads h ts w = (Normal tt, w') ->
  exists rows,
    w' = mkWorld (stdout w ++ rows) (stderr w)
    /\ Forall2 (fun t ln => thread_row t = Ok (Some ln)) (filter is_open ts) rows.
Proof.
  revert w. induction ts as [|t ts IH]; intros w H.
  - simpl in H. injection H as H. subst w'. exists [].
    rewrite app_nil_r. destruct w. split; [reflexivity | constructor].
  - rewrite for_threads_cons in H.
    destruct (thread_row t) as [[row|]|e] eqn:Erow; try discriminate H.
    + destruct (encodable h row); [|discriminate H].
      destruct (IH _ H) as [rows [E F]]. exists (row :: rows).
      simpl in E. rewrite <- app_assoc in E. split; [exact E|].
      simpl filter.
      rewrite (proj1 (thread_row_printed t row Erow)).
      constructor; assumption.
    + destruct (IH _ H) as [rows [E F]]. exists rows. split; [exact E|].
      simpl filter. rewrite (thread_row_none_not_open t Erow). exact F.
Qed.

Lemma normal_end_rows_witness :
  exists rows,
    mkWorld [row_T3_text; row_T1_text] [] = mkWorld ([] ++ rows) []
    /\ Forall2 (fun t ln => thread_row t = Ok (Some ln))
         (filter is_open [thread_T3; thread_T2; thread_T1]) rows.
Proof.
  exact (normal_end_rows plain_host [thread_T3; thread_T2; thread_T1] world0
           (mkWorld [row_T3_text; row_T1_text] []) eq_refl).
Defined.



(** ** Columns *)

Lemma ljust_exact (w : nat) (s : pystr) :
  length (ljust w s) = Nat.max w (length s).
Proof.
  unfold ljust. rewrite length_app, repeat_length. lia.
Qed.

Lemma format_left_text (w : nat) (v : json) (c : pystr) :
  format_left w v = Ok c ->
  exists s, field_text v = Some s /\ c = ljust w s.
Proof.
  destruct v; simpl; intro H; try discriminate H;
    injection H as H; subst c; eexists; split; reflexivity.
Qed.

(** A column and the space after it: the text, then spaces up to the width
    when the text is shorter, then one space. *)
Lemma column_padding (w : nat) (s : pystr) :
  ljust w s ++ [space] =
  s ++ repeat space (Nat.max w (length s) + 1 - length s)
  /\ length (ljust w s ++ [space]) = Nat.max w (length s) + 1.
Proof.
  split.
  - unfold ljust. rewrite <- app_assoc. f_equal.
    replace (Nat.max w (length s) + 1 - length s)
      with (w - length s + 1) by lia.
    rewrite repeat_app. reflexivity.
  - rewrite length_app, ljust_exact. simpl. lia.
Qed.

Lemma firstn_seg (x y : pystr) (n : nat) :
  length x = n -> firstn n (x ++ y) = x.
Proof.
  intros <-. rewrite firstn_app, Nat.sub_diag, firstn_all. simpl.
  apply app_nil_r.
Qed.

Lemma skipn_seg (x y : pystr) (n m : nat) :
  length x = n -> skipn (n + m) (x ++ y) = skipn m y.
Proof.
  intros <-. rewrite skipn_app, skipn_all2 by lia.
  replace (length x + m - length x) with m by lia. reflexivity.
Qed.

(** The row as four padded columns followed by the comment. *)
Lemma format_row_segments (tid path line : json) (body ln : pystr) :
  format_row tid path line body = Ok ln ->
  exists a b c,
    field_text tid = Some a /\ field_text path = Some b
    /\ field_text line = Some c
    /\ ln = (ljust 20 a ++ [space]) ++ (ljust 30 b ++ [space])
            ++ (ljust 5 c ++ [space]) ++ (ljust 10 (lit "OPEN") ++ [space])
            ++ body.
Proof.
  unfold format_row, row_columns.
  destruct (format_left 20 tid) as [c1|] eqn:E1; try discriminate.
  destruct (format_left 30 path) as [c2|] eqn:E2; try discriminate.
  destruct (format_left 5 line) as [c3|] eqn:E3; try discriminate.
  change (format_left 10 (JStr (lit "OPEN")))
    with (Ok (ljust 10 (lit "OPEN"))).
  cbv beta iota delta [rbind].
  intro H. injection H as H. subst ln.
  destruct (format_left_text _ _ _ E1) as [a [Ha ->]].
  destruct (format_left_text _ _ _ E2) as [b [Hb ->]].
  destruct (format_left_text _ _ _ E3) as [c [Hc ->]].
  exists a, b, c. repeat split; try assumption.
  change (ljust 10 (lit "OPEN") ++ [space]) with (lit "OPEN" ++ repeat space 7).
  repeat (rewrite <- app_assoc; simpl app). reflexivity.
Qed.

(** Columns are padded, never cut.  A printed row is, in this order: the
    whole text of [id], spaces up to width 20 and one more; the whole text
    of [path], spaces up to width 30 and one more; the whole text of [line],
    spaces up to width 5 and one more; [OPEN] and seven spaces; the comment.
    A text wider than its column is kept whole and moves everything after it
    to the right, so the comment starts at offset 69 exactly when the three
    texts fit and further right otherwise. *)
Theorem columns_padded_never_cut (tid path line : json) (body ln : pystr) :
  format_row tid path line body = Ok ln ->
  exists a b c,
    field_text tid = Some a /\ field_text path = Some b
    /\ field_text line = Some c
    /\ let o1 := Nat.max 20 (length a) + 1 in
       let o2 := o1 + (Nat.max 30 (length b) + 1) in
       let o3 := o2 + (Nat.max 5 (length c) + 1) in
       let off := o3 + 11 in
       firstn o1 ln = a ++ repeat space (o1 - length a)
       /\ firstn (o2 - o1) (skipn o1 ln) = b ++ repeat space (o2 - o1 - length b)
       /\ firstn (o3 - o2) (skipn o2 ln) = c ++ repeat space (o3 - o2 - length c)
       /\ firstn 11 (skipn o3 ln) = lit "OPEN" ++ repeat space 7
       /\ skipn off ln = body
       /\ length ln = off + length body
       /\ comment_column <= off
       /\ (off = comment_column <->
           length a <= 20 /\ length b <= 30 /\ length c <= 5).
Proof.
  intro H.
  destruct (format_row_segments tid path line body ln H)
    as [a [b [c [Ha [Hb [Hc Hln]]]]]].
  exists a, b, c. repeat split; try assumption; cbv zeta.
  all: destruct (column_padding 20 a) as [P1 L1];
       destruct (column_padding 30 b) as [P2 L2];
       destruct (column_padding 5 c) as [P3 L3];
       assert (L4 : length (ljust 10 (lit "OPEN") ++ [space]) = 11)
         by reflexivity;
       assert (P4 : ljust 10 (lit "OPEN") ++ [space]
                    = lit "OPEN" ++ repeat space 7) by reflexivity;
       subst ln; clear H;
       set (n1 := Nat.max 20 (length a) + 1) in *;
       set (n2 := Nat.max 30 (length b) + 1) in *;
       set (n3 := Nat.max 5 (length c) + 1) in *;
       set (S1 := ljust 20 a ++ [space]) in *;
       set (S2 := ljust 30 b ++ [space]) in *;
       set (S3 := ljust 5 c ++ [space]) in *;
       set (S4 := ljust 10 (lit "OPEN") ++ [space]) in *;
       clearbody S1 S2 S3 S4.
  - rewrite (firstn_seg S1 _ n1 L1). exact P1.
  - replace (n1 + n2 - n1) with n2 by lia.
    rewrite <- (Nat.add_0_r n1) at 1.
    rewrite (skipn_seg S1 _ n1 0 L1). simpl skipn.
    rewrite (firstn_seg S2 _ n2 L2). exact P2.
  - replace (n1 + n2 + n3 - (n1 + n2)) with n3 by lia.
    rewrite (skipn_seg S1 _ n1 n2 L1).
    rewrite <- (Nat.add_0_r n2) at 1.
    rewrite (skipn_seg S2 _ n2 0 L2). simpl skipn.
    rewrite (firstn_seg S3 _ n3 L3). exact P3.
  - rewrite <- Nat.add_assoc.
    rewrite (skipn_seg S1 _ n1 (n2 + n3) L1), (skipn_seg S2 _ n2 n3 L2).
    rewrite <- (Nat.add_0_r n3) at 1.
    rewrite (skipn_seg S3 _ n3 0 L3). simpl skipn.
    rewrite (firstn_seg S4 _ 11 L4). exact P4.
  - replace (n1 + n2 + n3 + 11) with (n1 + (n2 + (n3 + (11 + 0)))) by lia.
    rewrite (skipn_seg S1 _ n1 _ L1), (skipn_seg S2 _ n2 _ L2),
      (skipn_seg S3 _ n3 _ L3), (skipn_seg S4 _ 11 0 L4). reflexivity.
  - rewrite !length_app, L1, L2, L3, L4. lia.
  - unfold comment_column. subst n1 n2 n3. lia.
  - unfold comment_column in *. subst n1 n2 n3. lia.
  - unfold comment_column in *. subst n1 n2 n3. lia.
  - unfold comment_column in *. subst n1 n2 n3. lia.
  - unfold comment_column in *. subst n1 n2 n3. lia.
Qed.

Lemma columns_padded_never_cut_witness :
  exists a b c,
    field_text (JStr long_id) = Some a /\ field_text (JStr long_path) = Some b
    /\ field_text (JInt 123456) = Some c
    /\ let o1 := Nat.max 20 (length a) + 1 in
       let o2 := o1 + (Nat.max 30 (length b) + 1) in
       let o3 := o2 + (Nat.max 5 (length c) + 1) in
       let off := o3 + 11 in
       firstn o1 row_long_fields = a ++ repeat space (o1 - length a)
       /\ firstn (o2 - o1) (skipn o1 row_long_fields) =
          b ++ repeat space (o2 - o1 - length b)
       /\ firstn (o3 - o2) (skipn o2 row_long_fields) =
          c ++ repeat space (o3 - o2 - length c)
       /\ firstn 11 (skipn o3 row_long_fields) = lit "OPEN" ++ repeat space 7
       /\ skipn off row_long_fields = lit "fix"
       /\ length row_long_fields = off + length (lit "fix")
       /\ comment_column <= off
       /\ (off = comment_column <->
           length a <= 20 /\ length b <= 30 /\ length c <= 5).
Proof.
  exact (columns_padded_never_cut (JStr long_id) (JStr long_path)
           (JInt 123456) (lit "fix") row_long_fields eq_refl).
Defined.

(** When [id], [path] and the digits of [line] fit their widths 20, 30 and 5,
    the four columns take exactly 69 characters, so the COMMENT field starts
    at the offset at which the header has its COMMENT heading. *)
Theorem fitting_row_is_aligned (tid path : pystr) (line : Z) (body : pystr) :
  length tid <= 20 ->
  length path <= 30 ->
  length (str_of_int line) <= 5 ->
  exists ln,
    format_row (JStr tid) (JStr path) (JInt line) body = Ok ln
    /\ length ln = comment_column + length body
    /\ skipn comment_column ln = body
    /\ skipn comment_column header = lit "COMMENT".
Proof.
  intros Ht Hp Hl.
  eexists. split; [reflexivity|].
  assert (Lc : length (ljust 20 tid ++ [space] ++ ljust 30 path ++ [space]
                       ++ ljust 5 (str_of_int line) ++ [space]
                       ++ ljust 10 (lit "OPEN") ++ [space]) = comment_column).
  { rewrite !length_app, !ljust_exact. unfold comment_column.
    change (length (lit "OPEN")) with 4. simpl length. lia. }
  split; [|split].
  - rewrite length_app, Lc. reflexivity.
  - rewrite skipn_app, Lc, Nat.sub_diag. simpl skipn at 2.
    rewrite <- Lc at 1. rewrite skipn_all. reflexivity.
  - vm_compute. reflexivity.
Qed.

Lemma fitting_row_is_aligned_witness :
  exists ln,
    format_row (JStr (lit "T1")) (JStr (lit "a.py")) (JInt 10)
      (lit "line one line two") = Ok ln
    /\ length ln = comment_column + length (lit "line one line two")
    /\ skipn comment_column ln = lit "line one line two"
    /\ skipn comment_column header = lit "COMMENT".
Proof.
  apply (fitting_row_is_aligned (lit "T1") (lit "a.py") 10
           (lit "line one line two")); vm_compute; lia.
Defined.

(** ** The comment text *)

Lemma replace_newlines_length (s : pystr) :
  length (replace_newlines s) = length s.
Proof. unfold replace_newlines. apply length_map. Qed.

Lemma replace_newlines_id (s : pystr) :
  ~ In newline s -> replace_newlines s = s.
Proof.
  unfold replace_newlines. induction s as [|c s IH]; intro H.
  - reflexivity.
  - simpl. destruct (N.eqb c newline) eqn:E.
    + apply N.eqb_eq in E. exfalso. apply H. left. exact E.
    + f_equal. apply IH. intro Hin. apply H. right. exact Hin.
Qed.

Lemma replace_newlines_nth (s : pystr) (i : nat) :
  i < length s ->
  nth i (replace_newlines s) space =
  (if N.eqb (nth i s space) newline then space else nth i s space).
Proof.
  unfold replace_newlines. revert i.
  induction s as [|c s IH]; intros i Hi; simpl in Hi.
  - lia.
  - destruct i as [|i]; [reflexivity|]. simpl. apply IH. lia.
Qed.

(** The comment text of a thread whose first comment has a string body holds
    exactly min(50, length of the body) characters; each is the character of
    the body at the same position, a newline excepted, which becomes a space
    (carriage returns and tabs stay); a body of at most 50 characters without
    newline is printed as it is. *)
Theorem comment_text_exact (t : json) (raw : pystr) :
  first_comment_body t = Some raw ->
  exists body,
    comment_text t = Ok body
    /\ length body = Nat.min 50 (length raw)
    /\ (forall i, i < length body ->
          nth i body space =
          (if N.eqb (nth i raw space) newline then space else nth i raw space))
    /\ (length raw <= 50 -> ~ In newline raw -> body = raw).
Proof.
  intro H. exists (spec_comment raw).
  split; [apply comment_text_of_body; exact H|].
  unfold spec_comment. fold (replace_newlines raw).
  split; [|split].
  - rewrite length_firstn, replace_newlines_length. reflexivity.
  - intros i Hi.
    rewrite length_firstn, replace_newlines_length in Hi.
    apply Nat.min_glb_lt_iff in Hi. destruct Hi as [Hi50 Hi].
    rewrite nth_firstn.
    destruct (Nat.ltb_spec i 50) as [_|Hge]; [|lia].
    apply replace_newlines_nth. exact Hi.
  - intros Hlen Hnl. rewrite (replace_newlines_id raw Hnl).
    apply firstn_all2. exact Hlen.
Qed.

Lemma comment_text_exact_witness :
  exists body,
    comment_text thread_T3 = Ok body
    /\ length body = Nat.min 50 (length body_T3)
    /\ (forall i, i < length body ->
          nth i body space =
          (if N.eqb (nth i body_T3 space) newline then space
           else nth i body_T3 space))
    /\ (length body_T3 <= 50 -> ~ In newline body_T3 -> body = body_T3).
Proof.
  exact (comment_text_exact thread_T3 body_T3 eq_refl).
Defined.

(** ** Fields that are present but of another type *)

(** For a thread that is not skipped and has all its fields, an [id], [path]
    or [line] bound to [null], a list or a mapping ends the run with
    [TypeError]: the format specification is refused, nothing is printed for
    the thread and the threads after it are not processed.  A thread left on
    a file, whose [line] is [null], is such a thread. *)
Theorem unformattable_field_is_fatal
    (h : host) (o : list (pystr * json)) (tid path line : json) (raw : pystr)
    (post : list json) (w : world) :
  flag (lit "isOutdated") (JObj o) = Some false ->
  flag (lit "isResolved") (JObj o) = Some false ->
  dict_lookup (lit "id") o = Some tid ->
  dict_lookup (lit "path") o = Some path ->
  dict_lookup (lit "line") o = Some line ->
  first_comment_body (JObj o) = Some raw ->
  formattable tid && formattable path && formattable line = false ->
  thread_body h (JObj o) w = (Uncaught TypeError, w)
  /\ for_threads h (JObj o :: post) w = (Uncaught TypeError, w).
Proof.
  intros Ho Hr Hid Hpath Hline Hraw Hfmt.
  assert (Hrow : thread_row (JObj o) = Raise TypeError).
  { unfold thread_row. rewrite (skip_test_flags _ false false Ho Hr).
    cbv beta iota delta [rbind orb].
    rewrite (subscript_lookup o _ _ Hid), (subscript_lookup o _ _ Hpath),
      (subscript_lookup o _ _ Hline), (comment_text_of_body _ raw Hraw).
    unfold format_row, row_columns.
    destruct tid; try reflexivity;
      destruct path; try reflexivity;
      destruct line; try reflexivity; discriminate Hfmt. }
  split.
  - rewrite thread_body_row, Hrow. reflexivity.
  - rewrite for_threads_cons, Hrow. reflexivity.
Qed.

Lemma unformattable_field_is_fatal_witness :
  thread_body plain_host (JObj thread_null_line) world0 = (Uncaught TypeError, world0)
  /\ for_threads plain_host (JObj thread_null_line :: [thread_T1]) world0 =
     (Uncaught TypeError, world0).
Proof.
  exact (unformattable_field_is_fatal plain_host thread_null_line
           (JStr (lit "T7")) (JStr (lit "e.py")) JNull (lit "file note")
           [thread_T1] world0
           eq_refl eq_refl eq_refl eq_refl eq_refl eq_refl eq_refl).
Defined.

(** For a thread that is not skipped and has [id], [path] and [line], a first
    comment whose [body] is present but not a string ends the run with
    [AttributeError], before anything is printed for the thread. *)
Theorem non_string_body_is_fatal
    (h : host) (o c f : list (pystr * json)) (rest post : list json)
    (b : json) (w : world) :
  flag (lit "isOutdated") (JObj o) = Some false ->
  flag (lit "isResolved") (JObj o) = Some false ->
  dict_lookup (lit "id") o <> None ->
  dict_lookup (lit "path") o <> None ->
  dict_lookup (lit "line") o <> None ->
  dict_lookup (lit "comments") o = Some (JObj c) ->
  dict_lookup (lit "nodes") c = Some (JArr (JObj f :: rest)) ->
  dict_lookup (lit "body") f = Some b ->
  is_string b = false ->
  thread_body h (JObj o) w = (Uncaught AttributeError, w)
  /\ for_threads h (JObj o :: post) w = (Uncaught AttributeError, w).
Proof.
  intros Ho Hr Hid Hpath Hline Hc Hn Hb Hs.
  assert (Hct : comment_text (JObj o) = Raise AttributeError).
  { unfold comment_text. rewrite (subscript_lookup o _ _ Hc).
    unfold rbind at 1. rewrite (subscript_lookup c _ _ Hn).
    unfold rbind at 1. simpl subscript0. unfold rbind at 1.
    rewrite (subscript_lookup f _ _ Hb). unfold rbind at 1.
    destruct b; try reflexivity. discriminate Hs. }
  assert (Hrow : thread_row (JObj o) = Raise AttributeError).
  { unfold thread_row. rewrite (skip_test_flags _ false false Ho Hr).
    cbv beta iota delta [rbind orb].
    unfold subscript at 1 2 3.
    destruct (dict_lookup (lit "id") o); [|congruence].
    destruct (dict_lookup (lit "path") o); [|congruence].
    destruct (dict_lookup (lit "line") o); [|congruence].
    rewrite Hct. reflexivity. }
  split.
  - rewrite thread_body_row, Hrow. reflexivity.
  - rewrite for_threads_cons, Hrow. reflexivity.
Qed.

Lemma non_string_body_is_fatal_witness :
  thread_body plain_host (JObj thread_null_body) world0 = (Uncaught AttributeError, world0)
  /\ for_threads plain_host (JObj thread_null_body :: [thread_T1]) world0 =
     (Uncaught AttributeError, world0).
Proof.
  apply (non_string_body_is_fatal plain_host thread_null_body
           [ (lit "nodes", JArr [ JObj [ (lit "body", JNull) ] ]) ]
           [ (lit "body", JNull) ] [] [thread_T1] JNull world0);
    try reflexivity; discriminate.
Defined.
